(** * autogen.py: random n-body system generator

    A shallow embedding of [src/autogen.py] (generate_bodies,
    visualize_distributions and main) together with the properties of the
    generated properties document.

    Modelling conventions.
    - Python [str] is [string]; a Python list is a [list].
    - Python [int] is [Z]; loop indices produced by [range] are [nat].
    - A finite Python [float] is the rational it denotes ([Q]).  A float64
      that may leave the range of binary64 is an [npfloat]: a rational, an
      infinity or NaN.  The samples of [np.random.normal] are [npfloat]: a
      product scale * z at or beyond the overflow threshold 2^1024 - 2^970
      is an infinity.  Within the range the arithmetic is carried out
      exactly, without binary64 rounding, and zero has no sign.
    - [np.random.uniform] is modelled for bounds whose difference is finite
      in binary64; numpy raises OverflowError for the others.  Statements
      that a document is returned therefore ask for a finite mass range, and
      for positive scales where the sign of a zero scale would matter
      (numpy rejects a scale of -0.0).
    - [numpy.random], [scipy.stats.zipf] and the float-to-string conversion
      are library code: they are interfaces ([RandomSource], [ZipfPmf],
      [FloatStr]) whose laws are the documented contracts.
    - Effects (the process-wide random state, file writes, console output and
      the figure window) are threaded through the monad [M] over [World].  *)

From Stdlib Require Import ZArith QArith Qround Qabs String Ascii List Bool Lia
  Permutation DecimalString DecimalPos DecimalN DecimalZ.
Import ListNotations.
Open Scope string_scope.

(** ** Python strings *)

Module PyStr.

Definition LF : ascii := "010"%char.

(** The Python literal ["\n"]. *)
Definition newline : string := String LF EmptyString.

(** [sep.join(items)]. *)
Definition join (sep : string) (items : list string) : string :=
  String.concat sep items.

(** [c in s] for a one-character [c]. *)
Fixpoint contains (c : ascii) (s : string) : bool :=
  match s with
  | EmptyString => false
  | String a s' => if Ascii.eqb a c then true else contains c s'
  end.

(** [s.partition(c)]: the text before and after the first [c]. *)
Fixpoint partition (c : ascii) (s : string) : option (string * string) :=
  match s with
  | EmptyString => None
  | String a s' =>
      if Ascii.eqb a c then Some (EmptyString, s')
      else match partition c s' with
           | Some (h, t) => Some (String a h, t)
           | None => None
           end
  end.

(** [s.split(c)]: never the empty list. *)
Fixpoint split (c : ascii) (s : string) : list string :=
  match s with
  | EmptyString => [EmptyString]
  | String a s' =>
      if Ascii.eqb a c then EmptyString :: split c s'
      else match split c s' with
           | h :: t => String a h :: t
           | [] => [String a EmptyString]
           end
  end.

Definition is_empty (s : string) : bool :=
  match s with EmptyString => true | _ => false end.

(** [s.split()] restricted to the blank character: empty fields dropped. *)
Definition words (s : string) : list string :=
  filter (fun w => negb (is_empty w)) (split " "%char s).

Definition is_digit (a : ascii) : bool :=
  let n := nat_of_ascii a in (48 <=? n)%nat && (n <=? 57)%nat.

Fixpoint all_digits (s : string) : bool :=
  match s with
  | EmptyString => true
  | String a s' => is_digit a && all_digits s'
  end.

(** [str(z)] for an [int]. *)
Definition str_int (z : Z) : string :=
  NilEmpty.string_of_int (Z.to_int z).

Definition Qlt_bool (x y : Q) : bool := negb (Qle_bool y x).

(** Nearest integer, ties to the even one. *)
Definition round_half_even (q : Q) : Z :=
  let f := Qfloor q in
  let r := (Qnum q mod Zpos (Qden q))%Z in
  match (2 * r ?= Zpos (Qden q))%Z with
  | Lt => f
  | Gt => (f + 1)%Z
  | Eq => if Z.even f then f else (f + 1)%Z
  end.

(** The number of tenths printed by [format(x, '.1f')], sign apart. *)
Definition tenths (x : Q) : Z := round_half_even (Qabs x * 10).

(** [f"{x:.1f}"] for a finite float [x]: the correctly rounded decimal with
    one fractional digit; a negative [x] keeps its sign even when it rounds
    to zero. *)
Definition format_1f (x : Q) : string :=
  (if Qlt_bool x 0 then "-" else "")
    ++ str_int (tenths x / 10) ++ "." ++ str_int (tenths x mod 10).

End PyStr.

Import PyStr.

(** ** Python values, exceptions and effects *)

Module Py.

Inductive Exception : Type :=
| ValueError (msg : string)
| IndexError (msg : string).

Inductive Result (A : Type) : Type :=
| Ok (a : A)
| Raise (e : Exception).

Arguments Ok {A} a.
Arguments Raise {A} e.

(** A float64 as an array element or operation result: the real number
    it denotes, an infinity or NaN. *)
Inductive npfloat : Type :=
| Finite (q : Q)
| PosInf
| NegInf
| NaN.

(** One axes of the figure that is drawn on, with what was plotted on it.
    The axes that [plt.subplots] creates at [1, 1] stays empty beneath the
    3D axes and is not listed; matplotlib's own checks of the plotted data
    are not part of the model. *)
Inductive Panel : Type :=
| Hist (data : list npfloat) (bins : nat) (title xlabel : string)
       (log_y : bool)
| Scatter3D (xs ys zs : list npfloat) (sizes : list npfloat)
            (title : string).

Definition Figure : Type := list Panel.

(** What the process does to its environment. *)
Inductive Event : Type :=
| FileWrite (path data : string)
| Stdout (text : string)
| Show (fig : Figure).

Record World (S : Type) : Type := mkWorld {
  rng : S;
  effects : list Event
}.

Arguments mkWorld {S} rng effects.
Arguments rng {S} w.
Arguments effects {S} w.

Definition M (S A : Type) : Type := World S -> Result A * World S.

Definition ret {S A} (a : A) : M S A := fun w => (Ok a, w).

Definition raise {S A} (e : Exception) : M S A := fun w => (Raise e, w).

Definition bind {S A B} (m : M S A) (k : A -> M S B) : M S B :=
  fun w =>
    match m w with
    | (Ok a, w') => k a w'
    | (Raise e, w') => (Raise e, w')
    end.

(** A primitive that advances the random state and nothing else. *)
Definition with_rng {S A} (f : S -> A * S) : M S A :=
  fun w => let (a, s') := f (rng w) in (Ok a, mkWorld s' (effects w)).

(** A primitive that acts on the environment. *)
Definition emit {S} (e : Event) : M S unit :=
  fun w => (Ok tt, mkWorld (rng w) (effects w ++ [e])).

(** [l[i]] for [0 <= i]. *)
Definition getitem {S A} (l : list A) (i : nat) : M S A :=
  match nth_error l i with
  | Some a => ret a
  | None => raise (IndexError "index out of range")
  end.

(** [for x in xs: st = body(x, st)]. *)
Fixpoint for_each {S A St} (xs : list A) (body : A -> St -> M S St) (st : St)
  : M S St :=
  match xs with
  | [] => ret st
  | x :: xs' => bind (body x st) (for_each xs' body)
  end.

(** [range(n)]. *)
Definition range (n : Z) : list nat := seq 0 (Z.to_nat n).

(** [list.append]. *)
Definition append {A} (l : list A) (a : A) : list A := l ++ [a].

End Py.

Import Py.

Declare Scope py_scope.
Delimit Scope py_scope with py.
Notation "x <- m ;; k" := (bind m (fun x => k))
  (at level 61, m at next level, right associativity) : py_scope.
Notation "m ;;; k" := (bind m (fun _ => k))
  (at level 61, right associativity) : py_scope.
Open Scope py_scope.

(** ** numpy.random (legacy global RandomState) and friends *)

(** The bit generator behind [numpy.random]: a standard normal deviate, a
    double in [0, 1) and an integer in [0, max], each advancing the state. *)
Class RandomSource (S : Type) : Type := {
  legacy_gauss : S -> Q * S;
  random_double : S -> Q * S;
  random_interval : nat -> S -> nat * S;
  random_double_range :
    forall s, 0 <= fst (random_double s) /\ fst (random_double s) < 1;
  random_interval_range :
    forall m s, (fst (random_interval m s) <= m)%nat
}.

(** [str(x)] of a finite float, as the f-string field [{x}] renders it. *)
Class FloatStr : Type := {
  str_float : Q -> string;
  str_float_one_line : forall q, contains LF (str_float q) = false;
  str_float_nonempty : forall q, is_empty (str_float q) = false
}.

(** [scipy.stats.zipf.pmf(k, a)]. *)
Class ZipfPmf : Type := {
  zipf_pmf : Z -> Q -> Q
}.

Module Numpy.

(** The least magnitude that rounds to an infinity in binary64: half way
    between the largest float and 2^1024. *)
Definition overflow_threshold : Q := inject_Z (2 ^ 1024 - 2 ^ 970).

(** The float64 for the real result [x] of an operation: an infinity when
    [x] is out of range; rounding within the range is left out. *)
Definition to_float64 (x : Q) : npfloat :=
  if Qle_bool overflow_threshold x then PosInf
  else if Qle_bool x (- overflow_threshold) then NegInf
  else Finite x.

(** [a + b] on float64. *)
Definition np_add (a b : npfloat) : npfloat :=
  match a, b with
  | NaN, _ | _, NaN => NaN
  | PosInf, NegInf | NegInf, PosInf => NaN
  | PosInf, _ | _, PosInf => PosInf
  | NegInf, _ | _, NegInf => NegInf
  | Finite x, Finite y => to_float64 (x + y)
  end.

Section Sampling.
Context {S : Type} {RS : RandomSource S}.

(** [n] successive draws, in order. *)
Fixpoint draw_n {A} (draw : S -> A * S) (n : nat) (s : S) : list A * S :=
  match n with
  | O => ([], s)
  | Datatypes.S n' =>
      let (a, s1) := draw s in
      let (l, s2) := draw_n draw n' s1 in
      (a :: l, s2)
  end.

Definition negative_dimensions : Exception :=
  ValueError "negative dimensions are not allowed".

(** [np.random.normal(loc, scale, (rows, cols))]: the scale is validated,
    then the array is allocated and filled row by row with
    [loc + scale * gauss], a product and a sum of float64. *)
Definition normal (loc scale : Q) (rows : Z) (cols : nat)
  : M S (list (list npfloat)) :=
  if Qlt_bool scale 0 then raise (ValueError "scale < 0")
  else if (rows <? 0)%Z then raise negative_dimensions
  else
    zs <- with_rng (draw_n (draw_n legacy_gauss cols) (Z.to_nat rows)) ;;
    ret (map (map (fun z => np_add (Finite loc) (to_float64 (scale * z))))
             zs).

(** [np.random.uniform(low, high, n)]: [low + (high - low) * random_double],
    for bounds whose difference [high - low] is finite in binary64 (numpy
    raises OverflowError otherwise); the arithmetic is exact. *)
Definition uniform (low high : Q) (n : Z) : M S (list Q) :=
  if (n <? 0)%Z then raise negative_dimensions
  else
    us <- with_rng (draw_n random_double (Z.to_nat n)) ;;
    ret (map (fun u => low + (high - low) * u) us).

Fixpoint set_nth {A} (i : nat) (a : A) (l : list A) : list A :=
  match l, i with
  | [], _ => []
  | _ :: t, O => a :: t
  | h :: t, Datatypes.S i' => h :: set_nth i' a t
  end.

(** [x[i], x[j] = x[j], x[i]]. *)
Definition swap {A} (i j : nat) (x : list A) : list A :=
  match nth_error x i, nth_error x j with
  | Some a, Some b => set_nth j a (set_nth i b x)
  | _, _ => x
  end.

(** Where the element at index [n] of [swap i j x] comes from. *)
Definition transpose (i j n : nat) : nat :=
  if (n =? j)%nat then i else if (n =? i)%nat then j else n.

(** The loop of [shuffle]:
    [for i in reversed(range(1, n)): j = random_interval(i); swap]. *)
Fixpoint shuffle_from {A} (i : nat) (x : list A) (s : S) : list A * S :=
  match i with
  | O => (x, s)
  | Datatypes.S i' =>
      let (j, s') := random_interval i s in
      shuffle_from i' (swap i j x) s'
  end.

(** [np.random.shuffle(x)] on a one-dimensional array; the array is
    modified in place, here the permuted array is the result. *)
Definition shuffle {A} (x : list A) : M S (list A) :=
  with_rng (shuffle_from (length x - 1) x).

End Sampling.

(** [np.arange(lo, hi)] over integers. *)
Definition arange (lo hi : Z) : list Z :=
  map (fun k => (lo + Z.of_nat k)%Z) (seq 0 (Z.to_nat (hi - lo))).

(** The error of [a.max()] and [a.min()] on an empty array. *)
Definition zero_size_reduction (op : string) : Exception :=
  ValueError ("zero-size array to reduction operation " ++ op
                ++ " which has no identity").

Definition Qmax (a b : Q) : Q := if Qle_bool a b then b else a.
Definition Qmin (a b : Q) : Q := if Qle_bool a b then a else b.

(** [a.max()] and [a.min()]. *)
Definition amax {S} (a : list Q) : M S Q :=
  match a with
  | [] => raise (zero_size_reduction "maximum")
  | h :: t => ret (fold_left Qmax t h)
  end.

Definition amin {S} (a : list Q) : M S Q :=
  match a with
  | [] => raise (zero_size_reduction "minimum")
  | h :: t => ret (fold_left Qmin t h)
  end.

(** [a <= b] on float64; false when one of them is NaN. *)
Definition np_le_bool (a b : npfloat) : bool :=
  match a, b with
  | NaN, _ | _, NaN => false
  | NegInf, _ | _, PosInf => true
  | PosInf, _ | _, NegInf => false
  | Finite x, Finite y => Qle_bool x y
  end.

(** The larger and the smaller of two float64; NaN wins. *)
Definition np_maximum (a b : npfloat) : npfloat :=
  match a, b with
  | NaN, _ | _, NaN => NaN
  | _, _ => if np_le_bool a b then b else a
  end.

Definition np_minimum (a b : npfloat) : npfloat :=
  match a, b with
  | NaN, _ | _, NaN => NaN
  | _, _ => if np_le_bool a b then a else b
  end.

(** [a.max()] and [a.min()] on an array that may hold infinities. *)
Definition amax_f {S} (a : list npfloat) : M S npfloat :=
  match a with
  | [] => raise (zero_size_reduction "maximum")
  | h :: t => ret (fold_left np_maximum t h)
  end.

Definition amin_f {S} (a : list npfloat) : M S npfloat :=
  match a with
  | [] => raise (zero_size_reduction "minimum")
  | h :: t => ret (fold_left np_minimum t h)
  end.

Definition is_zero (q : Q) : bool := Qle_bool q 0 && Qle_bool 0 q.

(** [a / b] on float64: division by zero is not an error. *)
Definition true_divide (a b : Q) : npfloat :=
  if is_zero b then
    if is_zero a then NaN
    else if Qlt_bool a 0 then NegInf else PosInf
  else Finite (a / b).

Definition scale_by (x : npfloat) (k : Q) : npfloat :=
  match x with
  | Finite q => Finite (q * k)
  | NaN => NaN
  | PosInf =>
      if is_zero k then NaN else if Qlt_bool k 0 then NegInf else PosInf
  | NegInf =>
      if is_zero k then NaN else if Qlt_bool k 0 then PosInf else NegInf
  end.

(** [f"{x:.1f}"] on a float64 that may be infinite or NaN. *)
Definition format_1f_np (x : npfloat) : string :=
  match x with
  | Finite q => format_1f q
  | PosInf => "inf"
  | NegInf => "-inf"
  | NaN => "nan"
  end.

End Numpy.

Import Numpy.

(** ** autogen.py *)

Module Autogen.

Section Program.
Context {S : Type} {RS : RandomSource S} {FS : FloatStr} {ZP : ZipfPmf}.

(** The body of the loop [for i in range(n_bodies)] of generate_bodies
    (lines 52-60), one [append] after the other. *)
Definition body_section (body_keys : list string) (masses : list Q)
    (positions velocities : list (list npfloat)) (density : Q)
    (i : nat) (output : list string) : M S (list string) :=
  let output := append output ("# Body " ++ str_int (Z.of_nat i) ++ ":") in
  key <- getitem body_keys i ;;
  let output := append output (key ++ ".name=Body " ++ str_int (Z.of_nat i)) in
  key <- getitem body_keys i ;;
  m <- getitem masses i ;;
  let output := append output (key ++ ".mass=" ++ format_1f m) in
  key <- getitem body_keys i ;;
  let output := append output (key ++ ".density=" ++ str_float density) in
  key <- getitem body_keys i ;;
  p <- getitem positions i ;; p0 <- getitem p 0%nat ;;
  p <- getitem positions i ;; p1 <- getitem p 1%nat ;;
  p <- getitem positions i ;; p2 <- getitem p 2%nat ;;
  let output :=
    append output
      (key ++ ".position=" ++ format_1f_np p0 ++ "," ++ format_1f_np p1
           ++ "," ++ format_1f_np p2) in
  key <- getitem body_keys i ;;
  v <- getitem velocities i ;; v0 <- getitem v 0%nat ;;
  v <- getitem velocities i ;; v1 <- getitem v 1%nat ;;
  v <- getitem velocities i ;; v2 <- getitem v 2%nat ;;
  let output :=
    append output
      (key ++ ".velocity=" ++ format_1f_np v0 ++ "," ++ format_1f_np v1
           ++ "," ++ format_1f_np v2) in
  key <- getitem body_keys i ;;
  let output := append output (key ++ ".color=200,200,200") in
  ret (append output "").

(** generate_bodies (lines 5-62). *)
Definition generate_bodies (n_bodies : Z)
    (position_scale velocity_scale mass_scale density : Q) : M S string :=
  positions <- normal 0 position_scale n_bodies 3 ;;
  velocities <- normal 0 velocity_scale n_bodies 3 ;;
  masses <- uniform (mass_scale / 10) (mass_scale * 2) n_bodies ;;
  masses <- shuffle masses ;;
  let output := [] in
  let output := append output "# Physics system setup" in
  let output := append output "" in
  let output := append output "# System name:" in
  let output :=
    append output ("name=Random System (" ++ str_int n_bodies ++ " bodies)") in
  let output := append output "# Gravitational constant (unrealistic units)" in
  let output := append output "gravity=10.0" in
  let output := append output "# Simulation time step (seconds)" in
  let output := append output "timeStep=0.004" in
  let output := append output "# Keys for defined bodies" in
  let body_keys :=
    map (fun i => "body" ++ str_int (Z.of_nat i)) (range n_bodies) in
  let output := append output ("bodies=" ++ join " " body_keys) in
  let output := append output "" in
  output <- for_each (range n_bodies)
              (body_section body_keys masses positions velocities density)
              output ;;
  ret (join newline output).

(** [a[:, k]] on a two-dimensional array. *)
Fixpoint column (k : nat) (a : list (list npfloat)) : M S (list npfloat) :=
  match a with
  | [] => ret []
  | row :: rows =>
      x <- getitem row k ;;
      xs <- column k rows ;;
      ret (x :: xs)
  end.

(** [a.flatten()]. *)
Definition flatten (a : list (list npfloat)) : list npfloat := concat a.

(** The masses of the visualizer and of the statistics:
    [zipf.pmf(np.arange(1, n + 1), a) * mass_scale * n]. *)
Definition zipf_masses (n_bodies : Z) (mass_scale zipf_param : Q) : list Q :=
  map (fun k => zipf_pmf k zipf_param * mass_scale * inject_Z n_bodies)
      (arange 1 (n_bodies + 1)).

(** visualize_distributions (lines 64-104). *)
Definition visualize_distributions (n_bodies : Z)
    (position_scale velocity_scale mass_scale zipf_param : Q) : M S unit :=
  positions <- normal 0 position_scale n_bodies 3 ;;
  velocities <- normal 0 velocity_scale n_bodies 3 ;;
  masses <- shuffle (zipf_masses n_bodies mass_scale zipf_param) ;;
  let p00 :=
    Hist (flatten positions) 30 "Position Distribution (all axes)" "Position"
         false in
  let p01 :=
    Hist (flatten velocities) 30 "Velocity Distribution (all axes)" "Velocity"
         false in
  let p10 :=
    Hist (map Finite masses) 30 "Mass Distribution (Zipf)" "Mass" true in
  xs <- column 0 positions ;;
  ys <- column 1 positions ;;
  zs <- column 2 positions ;;
  top <- amax masses ;;
  let sizes := map (fun m => scale_by (true_divide m top) 50) masses in
  let p11 := Scatter3D xs ys zs sizes "3D Position Distribution" in
  emit (Show [p00; p01; p10; p11]).

Definition saved_message : string :=
  "Visualization saved to 'body_distributions.png'".

(** main (lines 106-133). *)
Definition main : M S unit :=
  let n_bodies := 100%Z in
  system_config <- generate_bodies n_bodies 1000 30 10000 (1 # 10) ;;
  emit (FileWrite "random_system.properties" system_config) ;;;
  visualize_distributions n_bodies 1000 30 10000 (3 # 2) ;;;
  emit (Stdout ("Generated " ++ str_int n_bodies
                  ++ " bodies in 'random_system.properties'")) ;;;
  emit (Stdout saved_message) ;;;
  positions <- normal 0 1000 n_bodies 3 ;;
  velocities <- normal 0 30 n_bodies 3 ;;
  let masses := zipf_masses n_bodies 10000 (3 # 2) in
  emit (Stdout (newline ++ "Statistics:")) ;;;
  lo <- amin_f (flatten positions) ;;
  hi <- amax_f (flatten positions) ;;
  emit (Stdout ("Position range: [" ++ format_1f_np lo ++ ", "
                  ++ format_1f_np hi ++ "]")) ;;;
  lo <- amin_f (flatten velocities) ;;
  hi <- amax_f (flatten velocities) ;;
  emit (Stdout ("Velocity range: [" ++ format_1f_np lo ++ ", "
                  ++ format_1f_np hi ++ "]")) ;;;
  lo <- amin masses ;;
  hi <- amax masses ;;
  emit (Stdout ("Mass range: [" ++ format_1f lo ++ ", " ++ format_1f hi
                  ++ "]")) ;;;
  hi <- amax masses ;;
  lo <- amin masses ;;
  emit (Stdout ("Largest mass / smallest mass: "
                  ++ format_1f_np (true_divide hi lo))).

End Program.

End Autogen.

Import Autogen.


(** ** A reader of the properties document

    The line-oriented [key=value] reader of the consumer: blank lines and
    [#] comments are skipped, a line is cut at its first [=], and a key of
    the form [owner.field] belongs to the record of [owner]. *)

Module Reader.

Definition lines (doc : string) : list string := split LF doc.

Definition is_comment (l : string) : bool :=
  match l with
  | String a _ => Ascii.eqb a "#"%char
  | EmptyString => false
  end.

Definition parse_line (l : string) : option (string * string) :=
  if is_empty l || is_comment l then None else partition "="%char l.

(** The entry of a line, if it has one. *)
Definition keep (l : string) : list (string * string) :=
  match parse_line l with Some kv => [kv] | None => [] end.

Definition entries (doc : string) : list (string * string) :=
  flat_map keep (lines doc).

Inductive Entry : Type :=
| Global (key value : string)
| Field (owner field value : string).

Definition classify (kv : string * string) : Entry :=
  match partition "."%char (fst kv) with
  | Some (owner, field) => Field owner field (snd kv)
  | None => Global (fst kv) (snd kv)
  end.

Definition read (doc : string) : list Entry := map classify (entries doc).

Definition global_keys (es : list Entry) : list string :=
  flat_map (fun e => match e with Global k _ => [k] | Field _ _ _ => [] end) es.

(** The value of a global key, when the key occurs exactly once. *)
Definition global_value (key : string) (es : list Entry) : option string :=
  match flat_map (fun e => match e with
                           | Global k v => if String.eqb k key then [v] else []
                           | Field _ _ _ => []
                           end) es with
  | [v] => Some v
  | _ => None
  end.

(** The owners of the scoped entries, in document order. *)
Definition owners (es : list Entry) : list string :=
  flat_map (fun e => match e with Field o _ _ => [o] | Global _ _ => [] end) es.

(** The record of an owner: its fields with their values, in order. *)
Definition record (owner : string) (es : list Entry) : list (string * string) :=
  flat_map (fun e => match e with
                     | Field o f v => if String.eqb o owner then [(f, v)] else []
                     | Global _ _ => []
                     end) es.

(** The values of a field over all records, in document order. *)
Definition field_values (field : string) (es : list Entry) : list string :=
  flat_map (fun e => match e with
                     | Field _ f v => if String.eqb f field then [v] else []
                     | Global _ _ => []
                     end) es.

(** The owners of maximal runs of consecutive scoped entries with one
    owner: one per section of the document. *)
Fixpoint runs (l : list string) : list string :=
  match l with
  | [] => []
  | a :: t =>
      match t with
      | b :: _ => if String.eqb a b then runs t else a :: runs t
      | [] => [a]
      end
  end.

Definition sections (es : list Entry) : list string := runs (owners es).

(** Number of keys that end in [.field]. *)
Definition occurrences (field : string) (es : list Entry) : nat :=
  List.length (field_values field es).

(** A decimal number with exactly one fractional digit: [-]digits.digit *)
Definition is_one_decimal (s : string) : bool :=
  let body := match s with
              | String a s' => if Ascii.eqb a "-"%char then s' else s
              | EmptyString => s
              end in
  match partition "."%char body with
  | Some (ip, fp) =>
      negb (is_empty ip) && all_digits ip
        && (String.length fp =? 1)%nat && all_digits fp
  | None => false
  end.

(** The value of a decimal number [-]digits.digits. *)
Definition parse_decimal (s : string) : option Q :=
  let (neg, body) :=
    match s with
    | String a s' => if Ascii.eqb a "-"%char then (true, s') else (false, s)
    | EmptyString => (false, s)
    end in
  match partition "."%char body with
  | Some (ip, fp) =>
      if negb (is_empty ip) && negb (is_empty fp) then
        match NilEmpty.uint_of_string ip, NilEmpty.uint_of_string fp with
        | Some i, Some f =>
            let v := inject_Z (Z.of_uint i)
                     + inject_Z (Z.of_uint f)
                       / inject_Z (10 ^ Z.of_nat (String.length fp)) in
            Some (if neg then - v else v)
        | _, _ => None
        end
      else None
  | None => None
  end.

(** The number printed for [x] by the one-decimal format: [x] rounded to
    the nearest tenth, written as integer part plus one fractional digit. *)
Definition rounded_1f (x : Q) : Q :=
  let v := inject_Z (tenths x / 10)
           + inject_Z (tenths x mod 10) / inject_Z (10 ^ Z.of_nat 1) in
  if Qlt_bool x 0 then - v else v.

(** What one field of a position or velocity line tells about the product
    [scale * z] it was computed from.  Within the range of binary64 the
    field is a decimal number; it differs from the product by the rounding
    to one decimal place and by the rounding of the product itself, at most
    half a unit in the 53rd bit.  At or beyond the overflow threshold the
    field is [inf] or [-inf]. *)
Definition renders (scale z : Q) (field : string) : Prop :=
  (Qabs (scale * z) < overflow_threshold ->
   exists q,
     parse_decimal field = Some q
     /\ Qabs (q - scale * z)
        <= (1 # 20) + Qabs (scale * z) / inject_Z (2 ^ 53))
  /\ (overflow_threshold <= scale * z -> field = "inf")
  /\ (scale * z <= - overflow_threshold -> field = "-inf").

(** A position or velocity value against the row of three deviates it was
    computed from. *)
Definition renders_row (scale : Q) (value : string) (row : list Q) : Prop :=
  exists a b c z0 z1 z2,
    split ","%char value = [a; b; c] /\ row = [z0; z1; z2]
    /\ renders scale z0 a /\ renders scale z1 b /\ renders scale z2 c.

End Reader.

Import Reader.

(** ** The document in closed form *)

Module Layout.

Section Layout.
Context {FS : FloatStr}.

Definition body_key (i : nat) : string := "body" ++ str_int (Z.of_nat i).

Definition triple (p : list npfloat) : string :=
  format_1f_np (nth 0 p (Finite 0)) ++ "," ++ format_1f_np (nth 1 p (Finite 0))
    ++ "," ++ format_1f_np (nth 2 p (Finite 0)).

Definition header (n_bodies : Z) : list string :=
  [ "# Physics system setup"; "";
    "# System name:";
    "name=Random System (" ++ str_int n_bodies ++ " bodies)";
    "# Gravitational constant (unrealistic units)";
    "gravity=10.0";
    "# Simulation time step (seconds)";
    "timeStep=0.004";
    "# Keys for defined bodies";
    "bodies=" ++ join " " (map body_key (range n_bodies));
    "" ].

Definition section_lines (density : Q) (masses : list Q)
    (positions velocities : list (list npfloat)) (i : nat) : list string :=
  [ "# Body " ++ str_int (Z.of_nat i) ++ ":";
    body_key i ++ ".name=Body " ++ str_int (Z.of_nat i);
    body_key i ++ ".mass=" ++ format_1f (nth i masses 0);
    body_key i ++ ".density=" ++ str_float density;
    body_key i ++ ".position=" ++ triple (nth i positions []);
    body_key i ++ ".velocity=" ++ triple (nth i velocities []);
    body_key i ++ ".color=200,200,200";
    "" ].

Definition document_lines (n_bodies : Z) (density : Q) (masses : list Q)
    (positions velocities : list (list npfloat)) : list string :=
  header n_bodies
    ++ flat_map (section_lines density masses positions velocities)
                (range n_bodies).

Definition header_entries (n_bodies : Z) : list Entry :=
  [ Global "name" ("Random System (" ++ str_int n_bodies ++ " bodies)");
    Global "gravity" "10.0";
    Global "timeStep" "0.004";
    Global "bodies" (join " " (map body_key (range n_bodies))) ].

Definition section_entries (density : Q) (masses : list Q)
    (positions velocities : list (list npfloat)) (i : nat) : list Entry :=
  [ Field (body_key i) "name" ("Body " ++ str_int (Z.of_nat i));
    Field (body_key i) "mass" (format_1f (nth i masses 0));
    Field (body_key i) "density" (str_float density);
    Field (body_key i) "position" (triple (nth i positions []));
    Field (body_key i) "velocity" (triple (nth i velocities []));
    Field (body_key i) "color" "200,200,200" ].

Definition document_entries (n_bodies : Z) (density : Q) (masses : list Q)
    (positions velocities : list (list npfloat)) : list Entry :=
  header_entries n_bodies
    ++ flat_map (section_entries density masses positions velocities)
                (range n_bodies).

Definition field_names : list string :=
  ["name"; "mass"; "density"; "position"; "velocity"; "color"].

End Layout.

Section Samples.
Context {S : Type} {RS : RandomSource S}.

(** The arrays that lines 25-33 leave in [positions], [velocities] and
    [masses], and the random state after them. *)
Record Samples : Type := mkSamples {
  positions : list (list npfloat);
  velocities : list (list npfloat);
  draws : list Q;
  masses : list Q;
  rest : S
}.

Definition sample (n : nat) (position_scale velocity_scale mass_scale : Q)
    (s : S) : Samples :=
  let (zp, s1) := draw_n (draw_n legacy_gauss 3) n s in
  let (zv, s2) := draw_n (draw_n legacy_gauss 3) n s1 in
  let (us, s3) := draw_n random_double n s2 in
  let low := mass_scale / 10 in
  let high := mass_scale * 2 in
  let ms := map (fun u => low + (high - low) * u) us in
  let (shuffled, s4) := shuffle_from (List.length ms - 1) ms s3 in
  mkSamples
    (map (map (fun z => np_add (Finite 0) (to_float64 (position_scale * z))))
         zp)
    (map (map (fun z => np_add (Finite 0) (to_float64 (velocity_scale * z))))
         zv)
    ms shuffled s4.

End Samples.

End Layout.

Import Layout.

(** ** A scripted random source

    The draws are read off three lists; a list that has run out yields
    zeros.  Doubles outside [0, 1) and indices above the bound are replaced
    by 0, so that the laws of [RandomSource] hold for every script. *)

Module Script.

Record Tape : Type := mkTape {
  gauss_tape : list Q;
  double_tape : list Q;
  index_tape : list nat
}.

Definition next_gauss (t : Tape) : Q * Tape :=
  match gauss_tape t with
  | [] => (0, t)
  | z :: zs => (z, mkTape zs (double_tape t) (index_tape t))
  end.

Definition unit_clamp (u : Q) : Q :=
  if Qle_bool 0 u && Qlt_bool u 1 then u else 0.

Definition next_double (t : Tape) : Q * Tape :=
  match double_tape t with
  | [] => (0, t)
  | u :: us => (unit_clamp u, mkTape (gauss_tape t) us (index_tape t))
  end.

Definition next_index (m : nat) (t : Tape) : nat * Tape :=
  match index_tape t with
  | [] => (0%nat, t)
  | j :: js =>
      (if (j <=? m)%nat then j else 0%nat,
       mkTape (gauss_tape t) (double_tape t) js)
  end.

Definition start (t : Tape) : World Tape := mkWorld t [].

(** A script for two bodies. *)
Definition demo : Tape :=
  mkTape [1; 2; 3; -4 # 10000; 5; 6; 7; 8; 9; 10; 11; 12]
         [1 # 256; 1 # 2] [0%nat].

End Script.

(** ** Frame conditions on computations *)

Module Frame.

(** The paths of the files a run has written. *)
Definition files_written (evs : list Event) : list string :=
  flat_map (fun e => match e with FileWrite p _ => [p] | _ => [] end) evs.

(** The lines a run has printed. *)
Definition console (evs : list Event) : list string :=
  flat_map (fun e => match e with Stdout t => [t] | _ => [] end) evs.

Section Frame.
Context {S A : Type}.

(** The computation acts on nothing but the random state. *)
Definition quiet (m : M S A) : Prop :=
  forall w, effects (snd (m w)) = effects w.

(** The result and the next random state depend on the random state
    only. *)
Definition rng_only (m : M S A) : Prop :=
  forall w1 w2,
    rng w1 = rng w2 ->
    fst (m w1) = fst (m w2) /\ rng (snd (m w1)) = rng (snd (m w2)).

(** The computation either raises without any effect or ends by showing
    one figure, its only effect. *)
Definition shows_only (m : M S A) : Prop :=
  forall w,
    (exists e, fst (m w) = Raise e /\ effects (snd (m w)) = effects w)
    \/ (exists a fig,
          fst (m w) = Ok a /\ effects (snd (m w)) = (effects w ++ [Show fig])%list).

End Frame.

End Frame.

Import Frame.

(** ** Facts about strings *)

Module StrFacts.

Lemma contains_app (c : ascii) (a b : string) :
  contains c (a ++ b) = contains c a || contains c b.
Proof.
  induction a as [|x a IH]; simpl; [reflexivity|].
  destruct (Ascii.eqb x c); [reflexivity|exact IH].
Qed.

Lemma partition_app (c : ascii) (a b : string) :
  contains c a = false ->
  partition c (a ++ String c b) = Some (a, b).
Proof.
  induction a as [|x a IH]; simpl.
  - now rewrite Ascii.eqb_refl.
  - destruct (Ascii.eqb x c); [discriminate|].
    intros H. now rewrite IH.
Qed.

Lemma partition_absent (c : ascii) (s : string) :
  contains c s = false -> partition c s = None.
Proof.
  induction s as [|x s IH]; simpl; [reflexivity|].
  destruct (Ascii.eqb x c); [discriminate|].
  intros H. now rewrite IH.
Qed.

Lemma split_absent (c : ascii) (s : string) :
  contains c s = false -> split c s = [s].
Proof.
  induction s as [|x s IH]; simpl; [reflexivity|].
  destruct (Ascii.eqb x c); [discriminate|].
  intros H. now rewrite IH.
Qed.

Lemma split_app (c : ascii) (a b : string) :
  contains c a = false ->
  split c (a ++ String c b) = a :: split c b.
Proof.
  induction a as [|x a IH]; simpl.
  - now rewrite Ascii.eqb_refl.
  - destruct (Ascii.eqb x c); [discriminate|].
    intros H. now rewrite IH.
Qed.

(** Splitting at the separator undoes [join], for fields free of it. *)
Lemma split_join (c : ascii) (l : string) (ls : list string) :
  Forall (fun x => contains c x = false) (l :: ls) ->
  split c (join (String c EmptyString) (l :: ls)) = l :: ls.
Proof.
  revert l. induction ls as [|l' ls IH]; intros l H.
  - simpl. apply split_absent. now inversion H.
  - inversion H as [|? ? Hl Hls]; subst.
    change (join (String c "") (l :: l' :: ls))
      with (l ++ String c (join (String c "") (l' :: ls))).
    rewrite split_app by assumption.
    now rewrite IH.
Qed.

Lemma digits_free (c : ascii) (d : Decimal.uint) :
  is_digit c = false -> contains c (NilEmpty.string_of_uint d) = false.
Proof.
  intros Hc.
  induction d; cbn [contains NilEmpty.string_of_uint]; try reflexivity;
    match goal with
    | |- (if Ascii.eqb ?x c then _ else _) = _ =>
        destruct (Ascii.eqb x c) eqn:E;
        [apply Ascii.eqb_eq in E; subst c; discriminate|assumption]
    end.
Qed.

Lemma digits_all (d : Decimal.uint) :
  all_digits (NilEmpty.string_of_uint d) = true.
Proof. induction d; simpl; auto. Qed.

Lemma digits_nonempty (d : Decimal.uint) :
  d <> Decimal.Nil -> is_empty (NilEmpty.string_of_uint d) = false.
Proof. destruct d; simpl; congruence. Qed.

Lemma to_int_nonneg (z : Z) :
  (0 <= z)%Z ->
  exists d, Z.to_int z = Decimal.Pos d /\ d <> Decimal.Nil.
Proof.
  destruct z as [|p|p]; intros H; simpl.
  - exists Decimal.zero. split; [reflexivity|discriminate].
  - exists (Pos.to_uint p). split; [reflexivity|apply Unsigned.to_uint_nonnil].
  - lia.
Qed.

(** The decimal rendering of a natural number has digits only. *)
Lemma str_int_free (c : ascii) (z : Z) :
  (0 <= z)%Z -> is_digit c = false -> contains c (str_int z) = false.
Proof.
  intros Hz Hc. destruct (to_int_nonneg z Hz) as (d & E & _).
  unfold str_int. rewrite E. simpl. now apply digits_free.
Qed.

Lemma str_int_digits (z : Z) :
  (0 <= z)%Z -> all_digits (str_int z) = true.
Proof.
  intros Hz. destruct (to_int_nonneg z Hz) as (d & E & _).
  unfold str_int. rewrite E. apply digits_all.
Qed.

Lemma str_int_nonempty (z : Z) : is_empty (str_int z) = false.
Proof.
  unfold str_int. destruct z as [|p|p]; simpl; try reflexivity.
  apply digits_nonempty, Unsigned.to_uint_nonnil.
Qed.

Lemma str_int_inj (a b : Z) : str_int a = str_int b -> a = b.
Proof.
  unfold str_int. intros H.
  apply DecimalZ.to_int_inj.
  assert (E : Some (Z.to_int a) = Some (Z.to_int b))
    by (rewrite <- !NilEmpty.isi; now rewrite H).
  now inversion E.
Qed.

Lemma str_int_digit (z : Z) :
  (0 <= z < 10)%Z -> String.length (str_int z) = 1%nat.
Proof.
  intros H.
  assert (C : (z = 0 \/ z = 1 \/ z = 2 \/ z = 3 \/ z = 4 \/ z = 5 \/ z = 6
               \/ z = 7 \/ z = 8 \/ z = 9)%Z) by lia.
  repeat (destruct C as [C|C]; [subst z; reflexivity|]).
  subst z; reflexivity.
Qed.

Lemma append_inv_head (a b c : string) : a ++ b = a ++ c -> b = c.
Proof. induction a; simpl; intros H; [assumption|]. inversion H. auto. Qed.

Lemma append_assoc (a b c : string) : (a ++ b) ++ c = a ++ b ++ c.
Proof. induction a; simpl; [reflexivity|]. now rewrite IHa. Qed.

Lemma is_empty_app (a b : string) :
  is_empty (a ++ b) = is_empty a && is_empty b.
Proof. destruct a; reflexivity. Qed.

End StrFacts.

Import StrFacts.

(** ** Facts about the one-decimal format *)

Module FormatFacts.

Lemma Qlt_bool_true (x y : Q) : Qlt_bool x y = true <-> x < y.
Proof.
  unfold Qlt_bool. rewrite negb_true_iff. split.
  - intros H. apply Qnot_le_lt. intros L. apply Qle_bool_iff in L. congruence.
  - intros H. destruct (Qle_bool y x) eqn:E; [|reflexivity].
    apply Qle_bool_iff in E. exfalso. exact (Qlt_not_le _ _ H E).
Qed.

Lemma Qlt_bool_false (x y : Q) : Qlt_bool x y = false <-> y <= x.
Proof.
  unfold Qlt_bool. rewrite negb_false_iff. apply Qle_bool_iff.
Qed.

Lemma round_half_even_nonneg (q : Q) :
  0 <= q -> (0 <= round_half_even q)%Z.
Proof.
  intros H. unfold round_half_even.
  assert (F : (0 <= Qfloor q)%Z).
  { change 0%Z with (Qfloor 0). now apply Qfloor_resp_le. }
  destruct (2 * (Qnum q mod Z.pos (Qden q)) ?= Z.pos (Qden q))%Z;
    [destruct (Z.even (Qfloor q))|..]; lia.
Qed.

(** Rounding moves a number by at most one half. *)
Lemma round_half_even_near (q : Q) :
  q - (1 # 2) <= inject_Z (round_half_even q)
  /\ inject_Z (round_half_even q) <= q + (1 # 2).
Proof.
  destruct q as [a b]. unfold round_half_even, Qfloor. cbn [Qnum Qden].
  pose proof (Z.div_mod a (Z.pos b) ltac:(lia)) as D.
  pose proof (Z.mod_pos_bound a (Z.pos b) ltac:(lia)) as B.
  set (f := (a / Z.pos b)%Z) in *. set (r := (a mod Z.pos b)%Z) in *.
  assert (G : forall n : Z,
             (2 * (Z.pos b * n - a) <= Z.pos b)%Z ->
             (2 * (a - Z.pos b * n) <= Z.pos b)%Z ->
             (a # b) - (1 # 2) <= inject_Z n /\ inject_Z n <= (a # b) + (1 # 2)).
  { intros n H1 H2. unfold Qle, Qminus, Qplus, Qopp, inject_Z. cbn.
    rewrite ?Pos2Z.inj_mul. change (Z.neg b) with (- Z.pos b)%Z.
    clear - H1 H2. generalize dependent (Z.pos b). intros p H1 H2.
    split; nia. }
  clearbody f r. generalize dependent (Z.pos b). intros p D B G.
  destruct (Z.compare_spec (2 * r) p) as [C|C|C].
  - destruct (Z.even f); apply G; nia.
  - apply G; nia.
  - apply G; nia.
Qed.

Lemma tenths_nonneg (x : Q) : (0 <= tenths x)%Z.
Proof.
  apply round_half_even_nonneg.
  apply Qmult_le_0_compat; [apply Qabs_nonneg|discriminate].
Qed.

Lemma tenths_split (x : Q) :
  (0 <= tenths x / 10)%Z /\ (0 <= tenths x mod 10 < 10)%Z.
Proof.
  pose proof (tenths_nonneg x). split.
  - apply Z.div_pos; lia.
  - apply Z.mod_pos_bound; lia.
Qed.

Lemma sign_free (c : ascii) (x : Q) :
  Ascii.eqb "-"%char c = false ->
  contains c (if Qlt_bool x 0 then "-" else "") = false.
Proof.
  intros H. destruct (Qlt_bool x 0); cbn [contains];
    [now rewrite H|reflexivity].
Qed.

(** A formatted number contains digits, a point and possibly a sign. *)
Lemma format_1f_free (c : ascii) (x : Q) :
  is_digit c = false -> Ascii.eqb "-"%char c = false ->
  Ascii.eqb "."%char c = false ->
  contains c (format_1f x) = false.
Proof.
  intros Hd Hm Hp. unfold format_1f.
  destruct (tenths_split x) as [Hi Hf].
  rewrite !contains_app, sign_free, !str_int_free by (assumption || lia).
  cbn [contains orb]. now rewrite Hp.
Qed.

Lemma digits_head (d : Decimal.uint) (t : string) :
  d <> Decimal.Nil ->
  exists a r, NilEmpty.string_of_uint d ++ t = String a r
              /\ Ascii.eqb a "-"%char = false.
Proof.
  destruct d; intros H; try congruence; simpl; eexists; eexists; split;
    try reflexivity; reflexivity.
Qed.

Lemma format_1f_shape (x : Q) :
  is_one_decimal (format_1f x) = true.
Proof.
  unfold format_1f.
  destruct (tenths_split x) as [Hi Hf].
  set (ip := str_int (tenths x / 10)). set (fp := str_int (tenths x mod 10)).
  assert (B : forall s,
             s = ip ++ "." ++ fp ->
             match partition "."%char s with
             | Some (ip, fp) =>
                 negb (is_empty ip) && all_digits ip
                 && (String.length fp =? 1)%nat && all_digits fp
             | None => false
             end = true).
  { intros s ->. change (ip ++ "." ++ fp) with (ip ++ String "."%char fp).
    rewrite partition_app by (apply str_int_free; [lia|reflexivity]).
    unfold ip, fp. rewrite str_int_nonempty, !str_int_digits by lia.
    rewrite str_int_digit by lia. reflexivity. }
  unfold is_one_decimal.
  destruct (Qlt_bool x 0).
  - cbn [String.append]. rewrite Ascii.eqb_refl. now apply B.
  - cbn [String.append].
    destruct (to_int_nonneg _ Hi) as (d & E & Hd).
    destruct (digits_head d (String "."%char fp) Hd) as (a & r & Es & Ea).
    assert (Eip : ip = NilEmpty.string_of_uint d)
      by (unfold ip, str_int; now rewrite E).
    rewrite Eip, Es, Ea, <- Es, <- Eip. now apply B.
Qed.

Lemma uint_of_str_int (z : Z) :
  (0 <= z)%Z ->
  exists d, NilEmpty.uint_of_string (str_int z) = Some d /\ Z.of_uint d = z.
Proof.
  intros Hz. destruct (to_int_nonneg z Hz) as (d & E & _).
  exists d. unfold str_int. rewrite E. cbn [NilEmpty.string_of_int].
  split; [apply NilEmpty.usu|].
  pose proof (DecimalZ.of_to z) as R. rewrite E in R. exact R.
Qed.

Lemma parse_format_1f (x : Q) :
  parse_decimal (format_1f x) = Some (rounded_1f x).
Proof.
  unfold format_1f, rounded_1f.
  destruct (tenths_split x) as [Hi Hf].
  set (ip := str_int (tenths x / 10)). set (fp := str_int (tenths x mod 10)).
  destruct (uint_of_str_int _ Hi) as (di & Ei & Vi).
  destruct (uint_of_str_int (tenths x mod 10) ltac:(lia)) as (df & Ef & Vf).
  fold ip in Ei. fold fp in Ef.
  assert (B : forall (neg : bool) s,
             s = ip ++ "." ++ fp ->
             match partition "."%char s with
             | Some (ip, fp) =>
                 if negb (is_empty ip) && negb (is_empty fp) then
                   match NilEmpty.uint_of_string ip,
                         NilEmpty.uint_of_string fp with
                   | Some i, Some f =>
                       let v := inject_Z (Z.of_uint i)
                                + inject_Z (Z.of_uint f)
                                  / inject_Z (10 ^ Z.of_nat (String.length fp)) in
                       Some (if neg then - v else v)
                   | _, _ => None
                   end
                 else None
             | None => None
             end
             = Some (let v := inject_Z (tenths x / 10)
                              + inject_Z (tenths x mod 10)
                                / inject_Z (10 ^ Z.of_nat 1) in
                     if neg then - v else v)).
  { intros neg s ->. change (ip ++ "." ++ fp) with (ip ++ String "."%char fp).
    rewrite partition_app by (apply str_int_free; [lia|reflexivity]).
    rewrite Ei, Ef, Vi, Vf. unfold ip, fp.
    rewrite !str_int_nonempty, str_int_digit by lia. reflexivity. }
  unfold parse_decimal.
  destruct (Qlt_bool x 0).
  - cbn [String.append]. rewrite Ascii.eqb_refl. now apply (B true).
  - cbn [String.append].
    destruct (to_int_nonneg _ Hi) as (d & E & Hd).
    destruct (digits_head d (String "."%char fp) Hd) as (a & r & Es & Ea).
    assert (Eip : ip = NilEmpty.string_of_uint d)
      by (unfold ip, str_int; now rewrite E).
    rewrite Eip, Es, Ea, <- Es, <- Eip. now apply (B false).
Qed.

Lemma rounded_1f_tenths (x : Q) :
  rounded_1f x ==
  (if Qlt_bool x 0 then - 1 else 1) * (inject_Z (tenths x) / 10).
Proof.
  unfold rounded_1f.
  pose proof (Z.div_mod (tenths x) 10 ltac:(lia)) as D.
  set (t := tenths x) in *.
  assert (E : inject_Z (t / 10) + inject_Z (t mod 10) / inject_Z (10 ^ Z.of_nat 1)
              == inject_Z t / 10).
  { rewrite D at 3. rewrite inject_Z_plus, inject_Z_mult.
    change (inject_Z (10 ^ Z.of_nat 1)) with 10.
    change (inject_Z 10) with 10. field. }
  destruct (Qlt_bool x 0); rewrite E; ring.
Qed.

(** The printed number is within half a tenth of the float. *)
Lemma rounded_1f_near (x : Q) :
  x - (1 # 20) <= rounded_1f x /\ rounded_1f x <= x + (1 # 20).
Proof.
  rewrite rounded_1f_tenths.
  destruct (round_half_even_near (Qabs x * 10)) as [L U].
  fold (tenths x) in L, U. set (t := inject_Z (tenths x)) in *.
  destruct (Qlt_bool x 0) eqn:Sx.
  - apply Qlt_bool_true in Sx.
    rewrite Qabs_neg in L, U by now apply Qlt_le_weak.
    split.
    + apply Qle_minus_iff. apply Qle_minus_iff in U.
      setoid_replace (-1 * (t / 10) + - (x - (1 # 20)))
        with ((- x * 10 + (1 # 2) + - t) * (1 # 10)) by field.
      apply Qmult_le_0_compat; [assumption|discriminate].
    + apply Qle_minus_iff. apply Qle_minus_iff in L.
      setoid_replace (x + (1 # 20) + - (-1 * (t / 10)))
        with ((t + - (- x * 10 - (1 # 2))) * (1 # 10)) by field.
      apply Qmult_le_0_compat; [assumption|discriminate].
  - apply Qlt_bool_false in Sx.
    rewrite Qabs_pos in L, U by assumption.
    split.
    + apply Qle_minus_iff. apply Qle_minus_iff in L.
      setoid_replace (1 * (t / 10) + - (x - (1 # 20)))
        with ((t + - (x * 10 - (1 # 2))) * (1 # 10)) by field.
      apply Qmult_le_0_compat; [assumption|discriminate].
    + apply Qle_minus_iff. apply Qle_minus_iff in U.
      setoid_replace (x + (1 # 20) + - (1 * (t / 10)))
        with ((x * 10 + (1 # 2) + - t) * (1 # 10)) by field.
      apply Qmult_le_0_compat; [assumption|discriminate].
Qed.

Lemma format_1f_one_line (q : Q) : contains LF (format_1f q) = false.
Proof. now apply format_1f_free. Qed.

Lemma format_1f_nonempty (q : Q) : is_empty (format_1f q) = false.
Proof.
  unfold format_1f.
  now rewrite !is_empty_app, str_int_nonempty, andb_false_r.
Qed.

(** An infinity or NaN is printed in letters. *)
Lemma format_1f_np_free (c : ascii) (x : npfloat) :
  is_digit c = false -> Ascii.eqb "-"%char c = false ->
  Ascii.eqb "."%char c = false ->
  contains c "inf" = false -> contains c "nan" = false ->
  contains c (format_1f_np x) = false.
Proof.
  intros Hd Hm Hp Hi Hn. destruct x as [q| | |]; cbn [format_1f_np].
  - now apply format_1f_free.
  - exact Hi.
  - change "-inf" with ("-" ++ "inf"). rewrite contains_app, Hi.
    cbn [contains orb]. now rewrite Hm.
  - exact Hn.
Qed.

Lemma format_1f_np_nonempty (x : npfloat) :
  is_empty (format_1f_np x) = false.
Proof. destruct x; cbn [format_1f_np]; auto using format_1f_nonempty. Qed.

End FormatFacts.

Import FormatFacts.

(** ** The scripted source as a random source *)

Module ScriptSource.

Import Script.

Lemma unit_clamp_range (u : Q) : 0 <= unit_clamp u /\ unit_clamp u < 1.
Proof.
  unfold unit_clamp.
  destruct (Qle_bool 0 u) eqn:H0; cbn [andb];
    [|split; [apply Qle_refl|reflexivity]].
  destruct (Qlt_bool u 1) eqn:H1; [|split; [apply Qle_refl|reflexivity]].
  split; [now apply Qle_bool_iff|now apply Qlt_bool_true].
Qed.

Lemma next_double_range (t : Tape) :
  0 <= fst (next_double t) /\ fst (next_double t) < 1.
Proof.
  unfold next_double. destruct (double_tape t); cbn [fst].
  - split; [apply Qle_refl|reflexivity].
  - apply unit_clamp_range.
Qed.

Lemma next_index_range (m : nat) (t : Tape) : (fst (next_index m t) <= m)%nat.
Proof.
  unfold next_index. destruct (index_tape t) as [|j js]; cbn [fst]; [lia|].
  destruct (Nat.leb_spec j m); lia.
Qed.

#[export] Instance tape_source : RandomSource Tape := {
  legacy_gauss := next_gauss;
  random_double := next_double;
  random_interval := next_index;
  random_double_range := next_double_range;
  random_interval_range := next_index_range
}.

(** A float-to-string conversion, exact on floats with one fractional
    digit such as the default density 0.1. *)
#[export] Instance tenths_str : FloatStr := {
  str_float := format_1f;
  str_float_one_line := format_1f_one_line;
  str_float_nonempty := format_1f_nonempty
}.

(** A stand-in for [zipf.pmf]: [1 / k^2]. *)
#[export] Instance inverse_square : ZipfPmf := {
  zipf_pmf := fun k _ => 1 / inject_Z (k * k)
}.

End ScriptSource.


(** ** Facts about sampling *)

Module SampleFacts.

Lemma nth_seq_map {A B} (f : A -> B) (d : A) (l : list A) :
  map (fun i => f (nth i l d)) (seq 0 (List.length l)) = map f l.
Proof.
  induction l as [|a l IH]; [reflexivity|].
  cbn [List.length seq map nth]. f_equal.
  rewrite <- seq_shift, map_map. exact IH.
Qed.

Section Draws.
Context {S : Type} {RS : RandomSource S}.

Lemma draw_n_length {A} (draw : S -> A * S) (n : nat) (s : S) :
  List.length (fst (draw_n draw n s)) = n.
Proof.
  revert s. induction n as [|n IH]; intros s; simpl; [reflexivity|].
  destruct (draw s) as [a s1]. specialize (IH s1).
  destruct (draw_n draw n s1) as [l s2]. simpl in *. now rewrite IH.
Qed.

Lemma draw_n_Forall {A} (draw : S -> A * S) (P : A -> Prop) :
  (forall s, P (fst (draw s))) ->
  forall n s, Forall P (fst (draw_n draw n s)).
Proof.
  intros H. induction n as [|n IH]; intros s; simpl; [constructor|].
  specialize (H s). destruct (draw s) as [a s1]. specialize (IH s1).
  destruct (draw_n draw n s1) as [l s2]. simpl in *. now constructor.
Qed.

Lemma matrix_rows {A} (draw : S -> A * S) (cols n : nat) (s : S) :
  Forall (fun row => List.length row = cols)
         (fst (draw_n (draw_n draw cols) n s)).
Proof. apply draw_n_Forall. intros s'. apply draw_n_length. Qed.

Lemma set_nth_length {A} (i : nat) (a : A) (l : list A) :
  List.length (set_nth i a l) = List.length l.
Proof.
  revert i. induction l as [|h t IH]; intros [|i]; simpl; auto.
Qed.

Lemma nth_error_set_nth {A} (i n : nat) (a : A) (l : list A) :
  (i < List.length l)%nat ->
  nth_error (set_nth i a l) n = if (n =? i)%nat then Some a else nth_error l n.
Proof.
  revert i n. induction l as [|h t IH]; intros i n Hi; simpl in Hi; [lia|].
  destruct i as [|i], n as [|n]; simpl; try reflexivity.
  apply IH. lia.
Qed.

Lemma swap_length {A} (i j : nat) (x : list A) :
  List.length (swap i j x) = List.length x.
Proof.
  unfold swap. destruct (nth_error x i), (nth_error x j); try reflexivity.
  now rewrite !set_nth_length.
Qed.

Lemma transpose_injective (i j : nat) : Finite.Injective (transpose i j).
Proof.
  intros a b. unfold transpose.
  destruct (Nat.eqb_spec a j), (Nat.eqb_spec a i),
           (Nat.eqb_spec b j), (Nat.eqb_spec b i); lia.
Qed.

Lemma nth_error_swap {A} (i j n : nat) (x : list A) :
  (i < List.length x)%nat -> (j < List.length x)%nat ->
  nth_error (swap i j x) n = nth_error x (transpose i j n).
Proof.
  intros Hi Hj. unfold swap, transpose.
  destruct (nth_error x i) as [a|] eqn:Ei;
    [|apply nth_error_None in Ei; lia].
  destruct (nth_error x j) as [b|] eqn:Ej;
    [|apply nth_error_None in Ej; lia].
  rewrite nth_error_set_nth by (rewrite set_nth_length; lia).
  rewrite nth_error_set_nth by lia.
  destruct (Nat.eqb_spec n j); [congruence|].
  destruct (Nat.eqb_spec n i); congruence.
Qed.

Lemma swap_Permutation {A} (i j : nat) (x : list A) :
  Permutation x (swap i j x).
Proof.
  destruct (Nat.ltb_spec i (List.length x)) as [Hi|Hi];
    [|unfold swap; apply nth_error_None in Hi; now rewrite Hi].
  destruct (Nat.ltb_spec j (List.length x)) as [Hj|Hj];
    [|unfold swap; apply nth_error_None in Hj; rewrite Hj;
      now destruct (nth_error x i)].
  apply Permutation_nth_error. split; [now rewrite swap_length|].
  exists (transpose i j). split; [apply transpose_injective|].
  intros n. now apply nth_error_swap.
Qed.

Lemma shuffle_from_Permutation {A} (i : nat) (x : list A) (s : S) :
  Permutation x (fst (shuffle_from i x s)).
Proof.
  revert x s. induction i as [|i IH]; intros x s; simpl; [reflexivity|].
  destruct (random_interval (Datatypes.S i) s) as [j s'].
  etransitivity; [apply (swap_Permutation (Datatypes.S i) j)|apply IH].
Qed.

Lemma shuffle_from_length {A} (i : nat) (x : list A) (s : S) :
  List.length (fst (shuffle_from i x s)) = List.length x.
Proof.
  symmetry. apply Permutation_length, shuffle_from_Permutation.
Qed.

(** A uniform draw stays between the bounds. *)
Lemma uniform_range (low high u : Q) :
  low <= high -> 0 <= u -> u < 1 ->
  low <= low + (high - low) * u /\ low + (high - low) * u < high \/ low == high.
Proof.
  intros Hlh H0 H1.
  destruct (Qeq_dec low high) as [E|N]; [now right|left].
  assert (P : 0 < high - low).
  { apply Qle_lteq in Hlh as [L|L]; [|contradiction].
    now apply Qlt_minus_iff in L. }
  split.
  - apply Qle_minus_iff.
    setoid_replace (low + (high - low) * u + - low) with ((high - low) * u)
      by ring.
    apply Qmult_le_0_compat; [now apply Qlt_le_weak|assumption].
  - apply Qlt_minus_iff.
    setoid_replace (high + - (low + (high - low) * u))
      with ((high - low) * (1 - u)) by ring.
    apply Qmult_lt_0_compat; [assumption|].
    unfold Qminus. now apply Qlt_minus_iff in H1.
Qed.

End Draws.

End SampleFacts.

Import SampleFacts.

(** ** Running generate_bodies *)

Module RunFacts.

Section Run.
Context {S : Type} {RS : RandomSource S} {FS : FloatStr}.

Lemma bind_ok {A B} (m : M S A) (k : A -> M S B) (w w' : World S) (a : A) :
  m w = (Ok a, w') -> bind m k w = k a w'.
Proof. intros H. unfold bind. now rewrite H. Qed.

Lemma bind_raise {A B} (m : M S A) (k : A -> M S B) (w w' : World S)
    (e : Exception) :
  m w = (Raise e, w') -> bind m k w = (Raise e, w').
Proof. intros H. unfold bind. now rewrite H. Qed.

Lemma normal_bad_scale (loc scale : Q) (rows : Z) (cols : nat) (w : World S) :
  Qlt_bool scale 0 = true ->
  normal loc scale rows cols w = (Raise (ValueError "scale < 0"), w).
Proof. intros H. unfold normal. now rewrite H. Qed.

Lemma normal_bad_rows (loc scale : Q) (rows : Z) (cols : nat) (w : World S) :
  Qlt_bool scale 0 = false -> (rows <? 0)%Z = true ->
  normal loc scale rows cols w = (Raise negative_dimensions, w).
Proof. intros H R. unfold normal. now rewrite H, R. Qed.

Lemma normal_ok (loc scale : Q) (rows : Z) (cols : nat) (w : World S) :
  Qlt_bool scale 0 = false -> (rows <? 0)%Z = false ->
  normal loc scale rows cols w
  = (Ok (map (map (fun z => np_add (Finite loc) (to_float64 (scale * z))))
             (fst (draw_n (draw_n legacy_gauss cols) (Z.to_nat rows) (rng w)))),
     mkWorld
       (snd (draw_n (draw_n legacy_gauss cols) (Z.to_nat rows) (rng w)))
       (effects w)).
Proof.
  intros H R. unfold normal. rewrite H, R. unfold bind, with_rng, ret.
  now destruct (draw_n _ _ (rng w)).
Qed.

Lemma shuffle_ok {A} (x : list A) (w : World S) :
  shuffle x w
  = (Ok (fst (shuffle_from (List.length x - 1) x (rng w))),
     mkWorld (snd (shuffle_from (List.length x - 1) x (rng w))) (effects w)).
Proof. unfold shuffle, with_rng. now destruct (shuffle_from _ _ (rng w)). Qed.

Lemma nth_error_row (p : list npfloat) (k : nat) :
  List.length p = 3%nat -> (k < 3)%nat ->
  nth_error p k = Some (nth k p (Finite 0)).
Proof. intros L H. apply nth_error_nth'. lia. Qed.

(** One round of the loop appends the eight lines of the section. *)
Lemma body_section_run (n : nat) (density : Q) (ms : list Q)
    (ps vs : list (list npfloat)) (i : nat) (output : list string) (w : World S) :
  (i < n)%nat ->
  List.length ms = n -> List.length ps = n -> List.length vs = n ->
  Forall (fun row => List.length row = 3%nat) ps ->
  Forall (fun row => List.length row = 3%nat) vs ->
  body_section (map body_key (seq 0 n)) ms ps vs density i output w
  = (Ok (output ++ section_lines density ms ps vs i)%list, w).
Proof.
  intros Hi Lm Lp Lv Rp Rv.
  assert (Ek : nth_error (map body_key (seq 0 n)) i = Some (body_key i)).
  { rewrite nth_error_map, nth_error_seq.
    destruct (Nat.ltb_spec i n); [reflexivity|lia]. }
  assert (Em : nth_error ms i = Some (nth i ms 0))
    by (apply nth_error_nth'; lia).
  assert (Ep : nth_error ps i = Some (nth i ps []))
    by (apply nth_error_nth'; lia).
  assert (Ev : nth_error vs i = Some (nth i vs []))
    by (apply nth_error_nth'; lia).
  assert (Lpi : List.length (nth i ps []) = 3%nat).
  { rewrite Forall_forall in Rp. apply Rp, nth_In. lia. }
  assert (Lvi : List.length (nth i vs []) = 3%nat).
  { rewrite Forall_forall in Rv. apply Rv, nth_In. lia. }
  unfold body_section, bind, getitem, ret, append.
  rewrite Ek, Em, Ep, Ev.
  rewrite !(nth_error_row (nth i ps [])), !(nth_error_row (nth i vs []))
    by (assumption || lia).
  unfold section_lines, triple.
  repeat rewrite <- app_assoc. reflexivity.
Qed.

Lemma for_each_sections (n : nat) (density : Q) (ms : list Q)
    (ps vs : list (list npfloat)) :
  List.length ms = n -> List.length ps = n -> List.length vs = n ->
  Forall (fun row => List.length row = 3%nat) ps ->
  Forall (fun row => List.length row = 3%nat) vs ->
  forall (k a : nat) (output : list string) (w : World S),
    (a + k <= n)%nat ->
    for_each (seq a k)
             (body_section (map body_key (seq 0 n)) ms ps vs density) output w
    = (Ok (output ++ flat_map (section_lines density ms ps vs) (seq a k))%list,
       w).
Proof.
  intros Lm Lp Lv Rp Rv.
  induction k as [|k IH]; intros a output w H.
  - simpl. now rewrite app_nil_r.
  - cbn [seq for_each flat_map]. unfold bind at 1.
    rewrite (body_section_run n) by (assumption || lia).
    rewrite IH by lia. now rewrite <- app_assoc.
Qed.

Lemma sample_shape (n : nat) (position_scale velocity_scale mass_scale : Q)
    (s : S) :
  let x := sample n position_scale velocity_scale mass_scale s in
  List.length (positions x) = n /\ List.length (velocities x) = n
  /\ List.length (draws x) = n /\ List.length (masses x) = n
  /\ Forall (fun row => List.length row = 3%nat) (positions x)
  /\ Forall (fun row => List.length row = 3%nat) (velocities x)
  /\ Permutation (draws x) (masses x).
Proof.
  unfold sample.
  pose proof (draw_n_length (draw_n legacy_gauss 3) n s) as Lp.
  pose proof (matrix_rows legacy_gauss 3 n s) as Rp.
  destruct (draw_n (draw_n legacy_gauss 3) n s) as [zp s1].
  pose proof (draw_n_length (draw_n legacy_gauss 3) n s1) as Lv.
  pose proof (matrix_rows legacy_gauss 3 n s1) as Rv.
  destruct (draw_n (draw_n legacy_gauss 3) n s1) as [zv s2].
  pose proof (draw_n_length random_double n s2) as Lu.
  destruct (draw_n random_double n s2) as [us s3].
  set (ms := map _ us).
  pose proof (shuffle_from_Permutation (List.length ms - 1) ms s3) as Pm.
  destruct (shuffle_from (List.length ms - 1) ms s3) as [sh s4].
  cbn [fst] in *. cbn.
  assert (Lms : List.length ms = n) by (unfold ms; now rewrite length_map).
  repeat split.
  - now rewrite length_map.
  - now rewrite length_map.
  - exact Lms.
  - rewrite <- (Permutation_length Pm). exact Lms.
  - apply Forall_map. eapply Forall_impl; [|exact Rp].
    intros row. cbn. now rewrite length_map.
  - apply Forall_map. eapply Forall_impl; [|exact Rv].
    intros row. cbn. now rewrite length_map.
  - exact Pm.
Qed.

(** For a body count and scales that numpy accepts, generate_bodies
    returns the document laid out from the samples, and leaves the random
    state where the sampling left it. *)
Lemma generate_bodies_run (n_bodies : Z)
    (position_scale velocity_scale mass_scale density : Q) (w : World S) :
  (0 <= n_bodies)%Z -> 0 <= position_scale -> 0 <= velocity_scale ->
  let x := sample (Z.to_nat n_bodies) position_scale velocity_scale
                  mass_scale (rng w) in
  generate_bodies n_bodies position_scale velocity_scale mass_scale density w
  = (Ok (join newline
           (document_lines n_bodies density (masses x) (positions x)
                           (velocities x))),
     mkWorld (rest x) (effects w)).
Proof.
  intros Hn Hp Hv x.
  destruct (sample_shape (Z.to_nat n_bodies) position_scale velocity_scale
              mass_scale (rng w)) as (Lp & Lv & _ & Lm & Rp & Rv & _).
  fold x in Lp, Lv, Lm, Rp, Rv.
  unfold generate_bodies, normal, uniform, shuffle.
  apply Qlt_bool_false in Hp, Hv. rewrite Hp, Hv.
  assert (Hz : (n_bodies <? 0)%Z = false) by (apply Z.ltb_ge; lia).
  rewrite Hz.
  revert Lp Lv Lm Rp Rv. unfold x, sample. clear x.
  destruct w as [s ev]. unfold bind, with_rng, ret. cbn [rng effects].
  destruct (draw_n (draw_n legacy_gauss 3) (Z.to_nat n_bodies) s) as [zp s1].
  cbn [rng effects].
  destruct (draw_n (draw_n legacy_gauss 3) (Z.to_nat n_bodies) s1) as [zv s2].
  cbn [rng effects].
  destruct (draw_n random_double (Z.to_nat n_bodies) s2) as [us s3].
  cbn [rng effects].
  destruct (shuffle_from _ _ s3) as [sh s4].
  cbn [positions velocities masses rest rng effects].
  intros Lp Lv Lm Rp Rv.
  unfold range.
  change (fun i : nat => "body" ++ str_int (Z.of_nat i)) with body_key.
  rewrite (for_each_sections (Z.to_nat n_bodies)) by (assumption || lia).
  reflexivity.
Qed.

End Run.

End RunFacts.

Import RunFacts.

(** ** Reading the document back *)

Module ReadFacts.

Lemma contains_join (c : ascii) (sep : string) (items : list string) :
  contains c sep = false ->
  Forall (fun x => contains c x = false) items ->
  contains c (join sep items) = false.
Proof.
  intros Hs H. induction H as [|x l Hx Hl IH]; [reflexivity|].
  destruct l as [|y l]; [exact Hx|].
  change (join sep (x :: y :: l)) with (x ++ sep ++ join sep (y :: l)).
  now rewrite !contains_app, Hx, Hs, IH.
Qed.

Lemma body_key_free (c : ascii) (i : nat) :
  is_digit c = false -> contains c "body" = false ->
  contains c (body_key i) = false.
Proof.
  intros Hd Hb. unfold body_key.
  now rewrite contains_app, Hb, str_int_free by (assumption || lia).
Qed.

Lemma body_keys_free (c : ascii) (l : list nat) :
  is_digit c = false -> contains c "body" = false ->
  Forall (fun x => contains c x = false) (map body_key l).
Proof.
  intros Hd Hb. apply Forall_map, Forall_forall. intros i _.
  now apply body_key_free.
Qed.

Lemma body_key_inj (i j : nat) : body_key i = body_key j -> i = j.
Proof.
  unfold body_key. intros H. apply append_inv_head in H.
  apply str_int_inj in H. lia.
Qed.

Lemma body_key_eqb (i j : nat) :
  String.eqb (body_key i) (body_key j) = (i =? j)%nat.
Proof.
  destruct (Nat.eqb_spec i j) as [->|N]; [apply String.eqb_refl|].
  apply String.eqb_neq. intros H. now apply body_key_inj in H.
Qed.

Lemma body_key_nonempty (i : nat) : is_empty (body_key i) = false.
Proof. reflexivity. Qed.

(** Goals [contains c s = false] for a concrete character [c]. *)
Ltac free :=
  repeat rewrite contains_app;
  rewrite ?body_key_free, ?format_1f_free, ?str_int_free,
          ?str_float_one_line, ?contains_join
    by (reflexivity || lia || (apply body_keys_free; reflexivity));
  reflexivity.

Section Read.
Context {FS : FloatStr}.

Lemma triple_free (c : ascii) (p : list npfloat) :
  is_digit c = false -> Ascii.eqb "-"%char c = false ->
  Ascii.eqb "."%char c = false -> Ascii.eqb ","%char c = false ->
  contains c "inf" = false -> contains c "nan" = false ->
  contains c (triple p) = false.
Proof.
  intros Hd Hm Hp Hc Hi Hn. unfold triple.
  rewrite !contains_app, !format_1f_np_free by assumption.
  cbn [contains orb]. now rewrite Hc.
Qed.

Lemma header_one_line (n_bodies : Z) :
  (0 <= n_bodies)%Z ->
  Forall (fun l => contains LF l = false) (header n_bodies).
Proof.
  intros Hn. unfold header.
  repeat (constructor; [free|]). constructor.
Qed.

Lemma section_one_line (density : Q) (ms : list Q) (ps vs : list (list npfloat))
    (i : nat) :
  Forall (fun l => contains LF l = false) (section_lines density ms ps vs i).
Proof.
  unfold section_lines.
  repeat (constructor;
          [repeat rewrite contains_app;
           rewrite ?triple_free by reflexivity; free|]).
  constructor.
Qed.

Lemma document_one_line (n_bodies : Z) (density : Q) (ms : list Q)
    (ps vs : list (list npfloat)) :
  (0 <= n_bodies)%Z ->
  Forall (fun l => contains LF l = false)
         (document_lines n_bodies density ms ps vs).
Proof.
  intros Hn. unfold document_lines. apply Forall_app. split.
  - now apply header_one_line.
  - apply Forall_flat_map, Forall_forall. intros i _.
    apply section_one_line.
Qed.

(** The lines of the returned text are the lines that were appended. *)
Lemma lines_document (n_bodies : Z) (density : Q) (ms : list Q)
    (ps vs : list (list npfloat)) :
  (0 <= n_bodies)%Z ->
  lines (join newline (document_lines n_bodies density ms ps vs))
  = document_lines n_bodies density ms ps vs.
Proof.
  intros Hn. pose proof (document_one_line n_bodies density ms ps vs Hn) as F.
  unfold lines, newline.
  remember (document_lines n_bodies density ms ps vs) as ls eqn:E.
  destruct ls as [|l ls]; [discriminate E|].
  now apply split_join.
Qed.

Lemma parse_field (key field value : string) :
  is_empty key = false -> is_comment key = false ->
  contains "="%char key = false -> contains "="%char field = false ->
  parse_line (key ++ "." ++ field ++ "=" ++ value)
  = Some (key ++ "." ++ field, value).
Proof.
  intros He Hc Hk Hf. unfold parse_line.
  assert (E : is_empty (key ++ "." ++ field ++ "=" ++ value) = false)
    by (rewrite is_empty_app, He; reflexivity).
  assert (C : is_comment (key ++ "." ++ field ++ "=" ++ value) = false)
    by (destruct key; [discriminate He|exact Hc]).
  rewrite E, C. cbn [orb].
  replace (key ++ "." ++ field ++ "=" ++ value)
    with ((key ++ "." ++ field) ++ String "="%char value)
    by (rewrite !append_assoc; reflexivity).
  apply partition_app. now rewrite !contains_app, Hk, Hf.
Qed.

Lemma classify_field (key field value : string) :
  contains "."%char key = false ->
  classify (key ++ "." ++ field, value) = Field key field value.
Proof.
  intros H. unfold classify. cbn [fst snd].
  change (key ++ "." ++ field) with (key ++ String "."%char field).
  now rewrite partition_app.
Qed.

Lemma keep_field (key field value : string) :
  is_empty key = false -> is_comment key = false ->
  contains "="%char key = false -> contains "="%char field = false ->
  contains "."%char key = false ->
  map classify (keep (key ++ "." ++ field ++ "=" ++ value))
  = [Field key field value].
Proof.
  intros. unfold keep. rewrite parse_field by assumption.
  cbn [map]. now rewrite classify_field.
Qed.

Lemma section_read (density : Q) (ms : list Q) (ps vs : list (list npfloat))
    (i : nat) :
  map classify (flat_map keep (section_lines density ms ps vs i))
  = section_entries density ms ps vs i.
Proof.
  unfold section_lines, section_entries.
  assert (K : forall field value,
             contains "="%char field = false ->
             map classify (keep (body_key i ++ "." ++ field ++ "=" ++ value))
             = [Field (body_key i) field value]).
  { intros. apply keep_field; try assumption; try reflexivity; free. }
  cbn [flat_map]. rewrite !map_app.
  transitivity
    ([] ++ [Field (body_key i) "name" ("Body " ++ str_int (Z.of_nat i))]
        ++ [Field (body_key i) "mass" (format_1f (nth i ms 0))]
        ++ [Field (body_key i) "density" (str_float density)]
        ++ [Field (body_key i) "position" (triple (nth i ps []))]
        ++ [Field (body_key i) "velocity" (triple (nth i vs []))]
        ++ [Field (body_key i) "color" "200,200,200"] ++ [] ++ [])%list;
    [|reflexivity].
  apply f_equal2; [reflexivity|].
  apply f_equal2;
    [exact (K "name" ("Body " ++ str_int (Z.of_nat i)) eq_refl)|].
  apply f_equal2; [exact (K "mass" (format_1f (nth i ms 0)) eq_refl)|].
  apply f_equal2; [exact (K "density" (str_float density) eq_refl)|].
  apply f_equal2; [exact (K "position" (triple (nth i ps [])) eq_refl)|].
  apply f_equal2; [exact (K "velocity" (triple (nth i vs [])) eq_refl)|].
  apply f_equal2; [exact (K "color" "200,200,200" eq_refl)|].
  reflexivity.
Qed.

Lemma header_read (n_bodies : Z) :
  map classify (flat_map keep (header n_bodies)) = header_entries n_bodies.
Proof. reflexivity. Qed.

(** What the reader finds in the returned text. *)
Lemma read_document (n_bodies : Z) (density : Q) (ms : list Q)
    (ps vs : list (list npfloat)) :
  (0 <= n_bodies)%Z ->
  read (join newline (document_lines n_bodies density ms ps vs))
  = document_entries n_bodies density ms ps vs.
Proof.
  intros Hn. unfold read, entries. rewrite lines_document by assumption.
  unfold document_lines, document_entries.
  rewrite flat_map_app, map_app, header_read. f_equal.
  induction (range n_bodies) as [|i l IH]; [reflexivity|].
  cbn [flat_map]. now rewrite flat_map_app, map_app, section_read, IH.
Qed.

End Read.

End ReadFacts.

Import ReadFacts.


(** ** Views of the document entries *)

Module EntryFacts.

Lemma flat_map_pick {B} (X : list B) (i : nat) :
  forall (k a : nat),
    flat_map (fun j => if (j =? i)%nat then X else []) (seq a k)
    = if ((a <=? i) && (i <? a + k))%nat then X else [].
Proof.
  induction k as [|k IH]; intros a.
  - cbn [seq flat_map].
    destruct (Nat.leb_spec a i), (Nat.ltb_spec i (a + 0)); cbn [andb];
      reflexivity || lia.
  - cbn [seq flat_map]. rewrite IH.
    destruct (Nat.eqb_spec a i) as [->|N].
    + destruct (Nat.leb_spec (Datatypes.S i) i); [lia|].
      destruct (Nat.leb_spec i i); [|lia].
      destruct (Nat.ltb_spec i (i + Datatypes.S k)); [|lia].
      cbn [andb]. apply app_nil_r.
    + cbn [app].
      destruct (Nat.leb_spec (Datatypes.S a) i), (Nat.leb_spec a i),
        (Nat.ltb_spec i (Datatypes.S a + k)),
        (Nat.ltb_spec i (a + Datatypes.S k)); cbn [andb];
        reflexivity || lia.
Qed.

Lemma flat_map_singleton {A B} (f : A -> B) (l : list A) :
  flat_map (fun x => [f x]) l = map f l.
Proof. induction l; cbn; congruence. Qed.

Lemma flat_map_nil {A B} (l : list A) :
  flat_map (fun _ => @nil B) l = [].
Proof. induction l; cbn; congruence. Qed.

Lemma flat_map_nested {A B C} (f : A -> list B) (g : B -> list C)
    (l : list A) :
  flat_map g (flat_map f l) = flat_map (fun x => flat_map g (f x)) l.
Proof.
  induction l as [|x l IH]; [reflexivity|].
  cbn [flat_map]. now rewrite flat_map_app, IH.
Qed.

(** Cut at the blanks, the joined keys are the keys. *)
Lemma words_join (items : list string) :
  Forall (fun x => contains " "%char x = false /\ is_empty x = false) items ->
  words (join " " items) = items.
Proof.
  intros H. destruct items as [|x l]; [reflexivity|].
  unfold words.
  change (join " " (x :: l)) with (join (String " "%char EmptyString) (x :: l)).
  rewrite split_join by (eapply Forall_impl; [|exact H]; now intros a [Ha _]).
  apply forallb_filter_id, forallb_forall. intros a Ha.
  rewrite Forall_forall in H. destruct (H a Ha) as [_ E]. now rewrite E.
Qed.

Lemma runs_blocks (k : nat -> string) (l : list nat) :
  (forall i j, k i = k j -> i = j) -> NoDup l ->
  runs (flat_map (fun i => [k i; k i; k i; k i; k i; k i]) l) = map k l.
Proof.
  intros Hk. induction l as [|i l IH]; intros N; [reflexivity|].
  inversion N as [|? ? Hi Nl]; subst.
  cbn [flat_map map app]. cbn [runs]. rewrite !String.eqb_refl.
  destruct l as [|j l].
  - reflexivity.
  - cbn [flat_map app] in *.
    assert (E : String.eqb (k i) (k j) = false).
    { apply String.eqb_neq. intros H. apply Hk in H. subst j.
      apply Hi. now left. }
    rewrite E. f_equal. now apply IH.
Qed.

Section Views.
Context {FS : FloatStr}.

Variables (n_bodies : Z) (density : Q) (ms : list Q) (ps vs : list (list npfloat)).

Let es := document_entries n_bodies density ms ps vs.

Lemma global_keys_document :
  global_keys es = ["name"; "gravity"; "timeStep"; "bodies"].
Proof.
  unfold es, document_entries, global_keys.
  rewrite flat_map_app, flat_map_nested. cbn [flat_map section_entries app].
  now rewrite flat_map_nil.
Qed.

Lemma global_value_document (key value : string) :
  In (Global key value) (header_entries n_bodies) ->
  global_value key es = Some value.
Proof.
  intros H. unfold es, document_entries, global_value.
  rewrite flat_map_app, flat_map_nested. cbn [flat_map section_entries app].
  rewrite flat_map_nil, app_nil_r.
  unfold header_entries in *. cbn [flat_map app].
  destruct H as [H|[H|[H|[H|[]]]]]; inversion H; subst; reflexivity.
Qed.

Lemma owners_document :
  owners es
  = flat_map (fun i => [body_key i; body_key i; body_key i; body_key i;
                        body_key i; body_key i]) (range n_bodies).
Proof.
  unfold es, document_entries, owners.
  now rewrite flat_map_app, flat_map_nested.
Qed.

Lemma sections_document :
  sections es = map body_key (range n_bodies).
Proof.
  unfold sections. rewrite owners_document.
  apply runs_blocks; [apply body_key_inj|apply seq_NoDup].
Qed.

Lemma record_document (i : nat) :
  (i < Z.to_nat n_bodies)%nat ->
  record (body_key i) es
  = [ ("name", "Body " ++ str_int (Z.of_nat i));
      ("mass", format_1f (nth i ms 0));
      ("density", str_float density);
      ("position", triple (nth i ps []));
      ("velocity", triple (nth i vs []));
      ("color", "200,200,200") ].
Proof.
  intros Hi. unfold es, document_entries, record.
  rewrite flat_map_app, flat_map_nested. cbn [flat_map header_entries app].
  unfold range.
  erewrite flat_map_ext.
  2:{ intros j. cbn [flat_map section_entries app].
      rewrite !body_key_eqb.
      instantiate (1 := fun j =>
        if (j =? i)%nat
        then [ ("name", "Body " ++ str_int (Z.of_nat i));
               ("mass", format_1f (nth i ms 0));
               ("density", str_float density);
               ("position", triple (nth i ps []));
               ("velocity", triple (nth i vs []));
               ("color", "200,200,200") ]
        else []).
      cbn beta. destruct (Nat.eqb_spec j i) as [->|]; reflexivity. }
  rewrite flat_map_pick.
  destruct (Nat.leb_spec 0 i), (Nat.ltb_spec i (0 + Z.to_nat n_bodies));
    cbn [andb]; reflexivity || lia.
Qed.

Lemma field_values_document :
  field_values "name" es
    = map (fun i => "Body " ++ str_int (Z.of_nat i)) (range n_bodies)
  /\ field_values "mass" es
    = map (fun i => format_1f (nth i ms 0)) (range n_bodies)
  /\ field_values "density" es
    = map (fun _ => str_float density) (range n_bodies)
  /\ field_values "position" es
    = map (fun i => triple (nth i ps [])) (range n_bodies)
  /\ field_values "velocity" es
    = map (fun i => triple (nth i vs [])) (range n_bodies)
  /\ field_values "color" es
    = map (fun _ => "200,200,200") (range n_bodies).
Proof.
  unfold es, document_entries, field_values.
  repeat split;
    rewrite flat_map_app, flat_map_nested; cbn [flat_map header_entries app];
    rewrite <- flat_map_singleton; apply flat_map_ext; intros i; reflexivity.
Qed.

Lemma occurrences_document (field : string) :
  In field field_names -> occurrences field es = Z.to_nat n_bodies.
Proof.
  destruct field_values_document as (E1 & E2 & E3 & E4 & E5 & E6).
  unfold occurrences, field_names.
  intros [H|[H|[H|[H|[H|[H|[]]]]]]]; subst field;
    rewrite ?E1, ?E2, ?E3, ?E4, ?E5, ?E6, length_map; apply length_seq.
Qed.

End Views.

End EntryFacts.

Import EntryFacts.

(** ** The returned document *)

Module DocumentFacts.

Section Document.
Context {S : Type} {RS : RandomSource S} {FS : FloatStr}.

(** For accepted arguments the call returns, and the reader finds the
    entries laid out from the samples. *)
Lemma generate_bodies_document (n_bodies : Z)
    (position_scale velocity_scale mass_scale density : Q) (w : World S) :
  (0 <= n_bodies)%Z -> 0 <= position_scale -> 0 <= velocity_scale ->
  let x := sample (Z.to_nat n_bodies) position_scale velocity_scale
                  mass_scale (rng w) in
  exists doc,
    generate_bodies n_bodies position_scale velocity_scale mass_scale density w
    = (Ok doc, mkWorld (rest x) (effects w))
    /\ lines doc
       = document_lines n_bodies density (masses x) (positions x)
                        (velocities x)
    /\ read doc
       = document_entries n_bodies density (masses x) (positions x)
                          (velocities x).
Proof.
  intros Hn Hp Hv x. eexists. split; [now apply generate_bodies_run|].
  fold x. split; [now apply lines_document|now apply read_document].
Qed.

(** The call returns only for a non-negative count and non-negative
    scales of the two normal distributions. *)
Lemma generate_bodies_returns (n_bodies : Z)
    (position_scale velocity_scale mass_scale density : Q) (w w' : World S)
    (doc : string) :
  generate_bodies n_bodies position_scale velocity_scale mass_scale density w
  = (Ok doc, w') ->
  (0 <= n_bodies)%Z /\ 0 <= position_scale /\ 0 <= velocity_scale.
Proof.
  intros H.
  destruct (Qlt_bool position_scale 0) eqn:Hp.
  { unfold generate_bodies in H.
    rewrite (bind_raise _ _ _ _ _ (normal_bad_scale _ _ _ _ _ Hp)) in H.
    discriminate H. }
  destruct (n_bodies <? 0)%Z eqn:Hn.
  { unfold generate_bodies in H.
    rewrite (bind_raise _ _ _ _ _ (normal_bad_rows _ _ _ _ _ Hp Hn)) in H.
    discriminate H. }
  destruct (Qlt_bool velocity_scale 0) eqn:Hv.
  { unfold generate_bodies in H.
    rewrite (bind_ok _ _ _ _ _ (normal_ok _ _ _ _ _ Hp Hn)) in H.
    rewrite (bind_raise _ _ _ _ _ (normal_bad_scale _ _ _ _ _ Hv)) in H.
    discriminate H. }
  apply Z.ltb_ge in Hn. apply Qlt_bool_false in Hp, Hv. auto.
Qed.

Lemma split_triple (p : list npfloat) :
  split ","%char (triple p)
  = [format_1f_np (nth 0 p (Finite 0)); format_1f_np (nth 1 p (Finite 0));
     format_1f_np (nth 2 p (Finite 0))].
Proof.
  unfold triple.
  change (format_1f_np (nth 0 p (Finite 0)) ++ ","
            ++ format_1f_np (nth 1 p (Finite 0)) ++ ","
            ++ format_1f_np (nth 2 p (Finite 0)))
    with (format_1f_np (nth 0 p (Finite 0))
            ++ String ","%char
                 (format_1f_np (nth 1 p (Finite 0))
                    ++ String ","%char (format_1f_np (nth 2 p (Finite 0))))).
  rewrite !split_app by (now apply format_1f_np_free).
  rewrite split_absent by (now apply format_1f_np_free). reflexivity.
Qed.

Lemma triple_nonempty (p : list npfloat) : is_empty (triple p) = false.
Proof.
  unfold triple. now rewrite is_empty_app, format_1f_np_nonempty.
Qed.

Lemma body_keys_words (l : list nat) :
  words (join " " (map body_key l)) = map body_key l.
Proof.
  apply words_join, Forall_map, Forall_forall. intros i _.
  split; [now apply body_key_free|reflexivity].
Qed.

Lemma body_keys_NoDup (n : nat) : NoDup (map body_key (seq 0 n)).
Proof.
  apply Finite.Injective_map_NoDup; [|apply seq_NoDup].
  intros i j. apply body_key_inj.
Qed.

Lemma owners_iff (n_bodies : Z) (density : Q) (ms : list Q)
    (ps vs : list (list npfloat)) (o : string) :
  In o (owners (document_entries n_bodies density ms ps vs))
  <-> In o (map body_key (range n_bodies)).
Proof.
  rewrite owners_document, in_flat_map, in_map_iff. split.
  - intros (i & Hi & Ho). exists i. split; [|exact Hi].
    cbn in Ho. intuition congruence.
  - intros (i & Ho & Hi). exists i. split; [exact Hi|]. left. exact Ho.
Qed.

Lemma distinct_owners (n_bodies : Z) (density : Q) (ms : list Q)
    (ps vs : list (list npfloat)) :
  List.length
    (nodup string_dec (owners (document_entries n_bodies density ms ps vs)))
  = Z.to_nat n_bodies.
Proof.
  transitivity (List.length (map body_key (range n_bodies)));
    [|unfold range; now rewrite length_map, length_seq].
  apply Permutation_length, NoDup_Permutation.
  - apply NoDup_nodup.
  - apply body_keys_NoDup.
  - intros o. rewrite nodup_In. apply owners_iff.
Qed.

End Document.

End DocumentFacts.

Import DocumentFacts.

(** ** Frame facts *)

Module FrameFacts.

Create HintDb frame.

Section Closure.
Context {S : Type} {RS : RandomSource S}.

Lemma quiet_ret {A} (a : A) : quiet (ret (S := S) a).
Proof. intros w. reflexivity. Qed.

Lemma quiet_raise {A} (e : Exception) : quiet (raise (S := S) (A := A) e).
Proof. intros w. reflexivity. Qed.

Lemma quiet_with_rng {A} (f : S -> A * S) : quiet (with_rng f).
Proof. intros w. unfold with_rng. now destruct (f (rng w)). Qed.

Lemma quiet_bind {A B} (m : M S A) (k : A -> M S B) :
  quiet m -> (forall a, quiet (k a)) -> quiet (bind m k).
Proof.
  intros Hm Hk w. unfold bind. specialize (Hm w).
  destruct (m w) as [[a|e] w1]; cbn [snd] in *; [|exact Hm].
  now rewrite Hk.
Qed.

Lemma quiet_getitem {A} (l : list A) (i : nat) : quiet (getitem (S := S) l i).
Proof. unfold getitem. destruct (nth_error l i); intros w; reflexivity. Qed.

Lemma quiet_for_each {A St} (body : A -> St -> M S St) (xs : list A) :
  (forall x st, quiet (body x st)) -> forall st, quiet (for_each xs body st).
Proof.
  intros Hb. induction xs as [|x xs IH]; intros st; cbn [for_each].
  - apply quiet_ret.
  - apply quiet_bind; [apply Hb|exact IH].
Qed.

Lemma quiet_normal (loc scale : Q) (rows : Z) (cols : nat) :
  quiet (normal loc scale rows cols).
Proof.
  unfold normal. destruct (Qlt_bool scale 0); [apply quiet_raise|].
  destruct (rows <? 0)%Z; [apply quiet_raise|].
  apply quiet_bind; [apply quiet_with_rng|intros; apply quiet_ret].
Qed.

Lemma quiet_uniform (low high : Q) (n : Z) : quiet (uniform low high n).
Proof.
  unfold uniform. destruct (n <? 0)%Z; [apply quiet_raise|].
  apply quiet_bind; [apply quiet_with_rng|intros; apply quiet_ret].
Qed.

Lemma quiet_shuffle {A} (x : list A) : quiet (shuffle x).
Proof. apply quiet_with_rng. Qed.

Lemma quiet_amax (a : list Q) : quiet (amax (S := S) a).
Proof. destruct a; intros w; reflexivity. Qed.

Lemma quiet_amin (a : list Q) : quiet (amin (S := S) a).
Proof. destruct a; intros w; reflexivity. Qed.

Lemma quiet_column (k : nat) (a : list (list npfloat)) : quiet (column (S := S) k a).
Proof.
  induction a as [|row rows IH]; cbn [column]; [apply quiet_ret|].
  apply quiet_bind; [apply quiet_getitem|intros x].
  apply quiet_bind; [exact IH|intros; apply quiet_ret].
Qed.

Lemma rng_only_ret {A} (a : A) : rng_only (ret (S := S) a).
Proof. intros w1 w2 H. cbn. auto. Qed.

Lemma rng_only_raise {A} (e : Exception) :
  rng_only (raise (S := S) (A := A) e).
Proof. intros w1 w2 H. cbn. auto. Qed.

Lemma rng_only_with_rng {A} (f : S -> A * S) : rng_only (with_rng f).
Proof.
  intros w1 w2 H. unfold with_rng. rewrite H.
  destruct (f (rng w2)). cbn. auto.
Qed.

Lemma rng_only_bind {A B} (m : M S A) (k : A -> M S B) :
  rng_only m -> (forall a, rng_only (k a)) -> rng_only (bind m k).
Proof.
  intros Hm Hk w1 w2 H. unfold bind. destruct (Hm w1 w2 H) as [R N].
  destruct (m w1) as [[a1|e1] u1], (m w2) as [[a2|e2] u2]; cbn [fst snd] in *;
    try discriminate R.
  - inversion R; subst a2. now apply Hk.
  - split; [congruence|exact N].
Qed.

Lemma rng_only_getitem {A} (l : list A) (i : nat) :
  rng_only (getitem (S := S) l i).
Proof.
  unfold getitem. destruct (nth_error l i);
    [apply rng_only_ret|apply rng_only_raise].
Qed.

Lemma rng_only_for_each {A St} (body : A -> St -> M S St) (xs : list A) :
  (forall x st, rng_only (body x st)) ->
  forall st, rng_only (for_each xs body st).
Proof.
  intros Hb. induction xs as [|x xs IH]; intros st; cbn [for_each].
  - apply rng_only_ret.
  - apply rng_only_bind; [apply Hb|exact IH].
Qed.

Lemma rng_only_normal (loc scale : Q) (rows : Z) (cols : nat) :
  rng_only (normal loc scale rows cols).
Proof.
  unfold normal. destruct (Qlt_bool scale 0); [apply rng_only_raise|].
  destruct (rows <? 0)%Z; [apply rng_only_raise|].
  apply rng_only_bind; [apply rng_only_with_rng|intros; apply rng_only_ret].
Qed.

Lemma rng_only_uniform (low high : Q) (n : Z) : rng_only (uniform low high n).
Proof.
  unfold uniform. destruct (n <? 0)%Z; [apply rng_only_raise|].
  apply rng_only_bind; [apply rng_only_with_rng|intros; apply rng_only_ret].
Qed.

Lemma rng_only_shuffle {A} (x : list A) : rng_only (shuffle x).
Proof. apply rng_only_with_rng. Qed.

End Closure.

#[export] Hint Resolve quiet_ret quiet_raise quiet_with_rng quiet_getitem
  quiet_normal quiet_uniform quiet_shuffle quiet_amax quiet_amin quiet_column
  rng_only_ret rng_only_raise rng_only_with_rng rng_only_getitem
  rng_only_normal rng_only_uniform rng_only_shuffle : frame.

(** Walks down a chain of binds, closing each step from the database. *)
Ltac frame :=
  cbv zeta;
  repeat first
    [ apply quiet_bind; [solve [auto with frame]|intros]
    | apply rng_only_bind; [solve [auto with frame]|intros] ];
  auto with frame.

Section Programs.
Context {S : Type} {RS : RandomSource S} {FS : FloatStr} {ZP : ZipfPmf}.

Lemma quiet_body_section (body_keys : list string) (ms : list Q)
    (ps vs : list (list npfloat)) (density : Q) (i : nat) (output : list string) :
  quiet (body_section (S := S) body_keys ms ps vs density i output).
Proof. unfold body_section. frame. Qed.

Lemma rng_only_body_section (body_keys : list string) (ms : list Q)
    (ps vs : list (list npfloat)) (density : Q) (i : nat) (output : list string) :
  rng_only (body_section (S := S) body_keys ms ps vs density i output).
Proof. unfold body_section. frame. Qed.

Lemma quiet_generate_bodies (n_bodies : Z)
    (position_scale velocity_scale mass_scale density : Q) :
  quiet (generate_bodies (S := S) n_bodies position_scale velocity_scale
                         mass_scale density).
Proof.
  unfold generate_bodies. frame.
  apply quiet_bind; [|intros; apply quiet_ret].
  apply quiet_for_each. intros. apply quiet_body_section.
Qed.

Lemma rng_only_generate_bodies (n_bodies : Z)
    (position_scale velocity_scale mass_scale density : Q) :
  rng_only (generate_bodies (S := S) n_bodies position_scale velocity_scale
                            mass_scale density).
Proof.
  unfold generate_bodies. frame.
  apply rng_only_bind; [|intros; apply rng_only_ret].
  apply rng_only_for_each. intros. apply rng_only_body_section.
Qed.

Lemma shows_only_bind {A B} (m : M S A) (k : A -> M S B) :
  quiet m -> (forall a, shows_only (k a)) -> shows_only (bind m k).
Proof.
  intros Hm Hk w. unfold bind. specialize (Hm w).
  destruct (m w) as [[a|e] w1]; cbn [snd] in *.
  - destruct (Hk a w1) as [(e & R & E)|(b & fig & R & E)].
    + left. exists e. split; [exact R|congruence].
    + right. exists b, fig. split; [exact R|congruence].
  - left. exists e. split; [reflexivity|exact Hm].
Qed.

Lemma shows_only_emit (fig : Figure) : shows_only (emit (S := S) (Show fig)).
Proof. intros w. right. exists tt, fig. split; reflexivity. Qed.

Lemma shows_only_visualize (n_bodies : Z)
    (position_scale velocity_scale mass_scale zipf_param : Q) :
  shows_only (visualize_distributions (S := S) n_bodies position_scale
                velocity_scale mass_scale zipf_param).
Proof.
  unfold visualize_distributions. cbv zeta.
  repeat (apply shows_only_bind; [solve [auto with frame]|intros]).
  apply shows_only_emit.
Qed.

End Programs.

End FrameFacts.

Import FrameFacts.

(** ** Running the visualizer and the entry point *)

Module MainFacts.

Section Main.
Context {S : Type} {RS : RandomSource S} {FS : FloatStr} {ZP : ZipfPmf}.

Lemma column_ok (k : nat) (a : list (list npfloat)) (w : World S) :
  Forall (fun row => List.length row = 3%nat) a -> (k < 3)%nat ->
  column k a w = (Ok (map (fun row => nth k row (Finite 0)) a), w).
Proof.
  intros H Hk. induction H as [|row rows Hr Hrows IH]; [reflexivity|].
  cbn [column map]. unfold bind, getitem.
  rewrite (nth_error_nth' row (Finite 0)) by lia. unfold ret at 1.
  rewrite IH. reflexivity.
Qed.

Lemma amax_ok (a : list Q) :
  (0 < List.length a)%nat -> exists q, forall w : World S, amax a w = (Ok q, w).
Proof.
  destruct a as [|h t]; cbn [List.length]; [lia|].
  intros _. eexists. intros w. reflexivity.
Qed.

Lemma amin_ok (a : list Q) :
  (0 < List.length a)%nat -> exists q, forall w : World S, amin a w = (Ok q, w).
Proof.
  destruct a as [|h t]; cbn [List.length]; [lia|].
  intros _. eexists. intros w. reflexivity.
Qed.

Lemma amax_f_ok (a : list npfloat) :
  (0 < List.length a)%nat ->
  exists x, forall w : World S, amax_f a w = (Ok x, w).
Proof.
  destruct a as [|h t]; cbn [List.length]; [lia|].
  intros _. eexists. intros w. reflexivity.
Qed.

Lemma amin_f_ok (a : list npfloat) :
  (0 < List.length a)%nat ->
  exists x, forall w : World S, amin_f a w = (Ok x, w).
Proof.
  destruct a as [|h t]; cbn [List.length]; [lia|].
  intros _. eexists. intros w. reflexivity.
Qed.

Lemma emit_ok (e : Event) (w : World S) :
  emit e w = (Ok tt, mkWorld (rng w) (effects w ++ [e])).
Proof. reflexivity. Qed.

Lemma normal_rows (loc scale : Q) (n : nat) (s : S) :
  let a := map (map (fun z => np_add (Finite loc) (to_float64 (scale * z))))
               (fst (draw_n (draw_n legacy_gauss 3) n s)) in
  List.length a = n /\ Forall (fun row => List.length row = 3%nat) a.
Proof.
  cbn zeta. split.
  - now rewrite length_map, draw_n_length.
  - apply Forall_map. eapply Forall_impl; [|apply matrix_rows].
    intros row. cbn beta. now rewrite length_map.
Qed.

Lemma flatten_nonempty (a : list (list npfloat)) :
  (0 < List.length a)%nat -> Forall (fun row => List.length row = 3%nat) a ->
  (0 < List.length (flatten a))%nat.
Proof.
  destruct a as [|row rows]; cbn [List.length]; [lia|].
  intros _ H. inversion H as [|? ? Hr _]; subst.
  unfold flatten. cbn [concat]. rewrite length_app. lia.
Qed.

Lemma zipf_masses_length (n_bodies : Z) (mass_scale zipf_param : Q) :
  List.length (zipf_masses n_bodies mass_scale zipf_param) = Z.to_nat n_bodies.
Proof.
  unfold zipf_masses, arange. rewrite !length_map, length_seq. f_equal. lia.
Qed.

(** With at least one body and scales numpy accepts, the visualizer
    returns after showing one figure. *)
Lemma visualize_run (n_bodies : Z)
    (position_scale velocity_scale mass_scale zipf_param : Q) (w : World S) :
  (1 <= n_bodies)%Z -> 0 <= position_scale -> 0 <= velocity_scale ->
  exists fig s',
    visualize_distributions n_bodies position_scale velocity_scale mass_scale
                            zipf_param w
    = (Ok tt, mkWorld s' (effects w ++ [Show fig])).
Proof.
  intros Hn Hp Hv. apply Qlt_bool_false in Hp, Hv.
  assert (Hz : (n_bodies <? 0)%Z = false) by (apply Z.ltb_ge; lia).
  unfold visualize_distributions.
  rewrite (bind_ok _ _ _ _ _ (normal_ok 0 position_scale n_bodies 3 w Hp Hz)).
  destruct (normal_rows 0 position_scale (Z.to_nat n_bodies) (rng w))
    as [Lp Rp].
  set (ps := map _ (fst (draw_n _ _ (rng w)))) in *.
  set (w1 := mkWorld _ (effects w)).
  rewrite (bind_ok _ _ _ _ _ (normal_ok 0 velocity_scale n_bodies 3 w1 Hv Hz)).
  set (vs := map _ (fst (draw_n _ _ (rng w1)))).
  set (w2 := mkWorld _ (effects w1)).
  rewrite (bind_ok _ _ _ _ _ (shuffle_ok _ w2)).
  set (zm := zipf_masses n_bodies mass_scale zipf_param).
  set (sh := fst (shuffle_from (List.length zm - 1) zm (rng w2))).
  set (w3 := mkWorld _ (effects w2)).
  cbv zeta.
  rewrite (bind_ok _ _ _ _ _ (column_ok 0 ps w3 Rp ltac:(lia))).
  rewrite (bind_ok _ _ _ _ _ (column_ok 1 ps w3 Rp ltac:(lia))).
  rewrite (bind_ok _ _ _ _ _ (column_ok 2 ps w3 Rp ltac:(lia))).
  assert (Lsh : (0 < List.length sh)%nat).
  { unfold sh. rewrite shuffle_from_length. unfold zm.
    rewrite zipf_masses_length. lia. }
  destruct (amax_ok sh Lsh) as (top & Top).
  rewrite (bind_ok _ _ _ _ _ (Top w3)).
  rewrite emit_ok. eexists. eexists. reflexivity.
Qed.

(** The entry point runs to its end; it writes the properties file, shows
    the figure and then prints, among others, the message about a saved
    picture. *)
Lemma main_run (w : World S) :
  exists doc fig s' stats,
    main w
    = (Ok tt,
       mkWorld s'
         (effects w
            ++ [ FileWrite "random_system.properties" doc;
                 Show fig;
                 Stdout "Generated 100 bodies in 'random_system.properties'";
                 Stdout saved_message ]
            ++ map Stdout stats)).
Proof.
  assert (Hn : (0 <= 100)%Z) by lia.
  assert (Hp : 0 <= 1000) by (unfold Qle; simpl; lia).
  assert (Hv : 0 <= 30) by (unfold Qle; simpl; lia).
  unfold main. cbv zeta.
  rewrite (bind_ok _ _ _ _ _
             (generate_bodies_run 100 1000 30 10000 (1 # 10) w Hn Hp Hv)).
  set (doc := join newline _).
  set (w1 := mkWorld _ (effects w)).
  rewrite (bind_ok _ _ _ _ _ (emit_ok _ w1)).
  set (w2 := mkWorld (rng w1) _).
  destruct (visualize_run 100 1000 30 10000 (3 # 2) w2 ltac:(lia) Hp Hv)
    as (fig & s3 & V).
  rewrite (bind_ok _ _ _ _ _ V).
  set (w3 := mkWorld s3 _).
  rewrite (bind_ok _ _ _ _ _ (emit_ok _ w3)).
  set (w4 := mkWorld (rng w3) _).
  rewrite (bind_ok _ _ _ _ _ (emit_ok _ w4)).
  set (w5 := mkWorld (rng w4) _).
  apply Qlt_bool_false in Hp, Hv.
  rewrite (bind_ok _ _ _ _ _ (normal_ok 0 1000 100 3 w5 Hp eq_refl)).
  destruct (normal_rows 0 1000 (Z.to_nat 100) (rng w5)) as [Lp Rp].
  set (ps := map _ (fst (draw_n _ _ (rng w5)))) in *.
  set (w6 := mkWorld _ (effects w5)).
  rewrite (bind_ok _ _ _ _ _ (normal_ok 0 30 100 3 w6 Hv eq_refl)).
  destruct (normal_rows 0 30 (Z.to_nat 100) (rng w6)) as [Lv Rv].
  set (vs := map _ (fst (draw_n _ _ (rng w6)))) in *.
  set (w7 := mkWorld _ (effects w6)).
  rewrite (bind_ok _ _ _ _ _ (emit_ok _ w7)).
  set (w8 := mkWorld (rng w7) _).
  assert (Fp : (0 < List.length (flatten ps))%nat)
    by (apply flatten_nonempty; [rewrite Lp; cbn; lia|exact Rp]).
  assert (Fv : (0 < List.length (flatten vs))%nat)
    by (apply flatten_nonempty; [rewrite Lv; cbn; lia|exact Rv]).
  assert (Fm : (0 < List.length (zipf_masses 100 10000 (3 # 2)))%nat)
    by (rewrite zipf_masses_length; cbn; lia).
  destruct (amin_f_ok _ Fp) as (plo & Plo), (amax_f_ok _ Fp) as (phi & Phi).
  destruct (amin_f_ok _ Fv) as (vlo & Vlo), (amax_f_ok _ Fv) as (vhi & Vhi).
  destruct (amin_ok _ Fm) as (mlo & Mlo), (amax_ok _ Fm) as (mhi & Mhi).
  rewrite (bind_ok _ _ _ _ _ (Plo w8)), (bind_ok _ _ _ _ _ (Phi w8)).
  rewrite (bind_ok _ _ _ _ _ (emit_ok _ w8)).
  set (w9 := mkWorld (rng w8) _).
  rewrite (bind_ok _ _ _ _ _ (Vlo w9)), (bind_ok _ _ _ _ _ (Vhi w9)).
  rewrite (bind_ok _ _ _ _ _ (emit_ok _ w9)).
  set (w10 := mkWorld (rng w9) _).
  rewrite (bind_ok _ _ _ _ _ (Mlo w10)), (bind_ok _ _ _ _ _ (Mhi w10)).
  rewrite (bind_ok _ _ _ _ _ (emit_ok _ w10)).
  set (w11 := mkWorld (rng w10) _).
  rewrite (bind_ok _ _ _ _ _ (Mhi w11)), (bind_ok _ _ _ _ _ (Mlo w11)).
  rewrite emit_ok.
  exists doc, fig. eexists.
  exists [ newline ++ "Statistics:";
           "Position range: [" ++ format_1f_np plo ++ ", " ++ format_1f_np phi
             ++ "]";
           "Velocity range: [" ++ format_1f_np vlo ++ ", " ++ format_1f_np vhi
             ++ "]";
           "Mass range: [" ++ format_1f mlo ++ ", " ++ format_1f mhi ++ "]";
           "Largest mass / smallest mass: "
             ++ format_1f_np (true_divide mhi mlo) ].
  f_equal. f_equal. cbn [effects w11 w10 w9 w8 w7 w6 w5 w4 w3 w2 w1 map].
  repeat rewrite <- app_assoc. reflexivity.
Qed.

End Main.

End MainFacts.

Import MainFacts.

(** ** The emitted values against the draws *)

Module DrawFacts.

Lemma overflow_threshold_positive : 0 < overflow_threshold.
Proof. reflexivity. Qed.

Lemma to_float64_finite (x : Q) :
  Qabs x < overflow_threshold -> to_float64 x = Finite x.
Proof.
  intros H. apply Qabs_Qlt_condition in H as [L U]. unfold to_float64.
  destruct (Qle_bool overflow_threshold x) eqn:A.
  { apply Qle_bool_iff in A. exfalso. exact (Qlt_not_le _ _ U A). }
  destruct (Qle_bool x (- overflow_threshold)) eqn:B; [|reflexivity].
  apply Qle_bool_iff in B. exfalso. exact (Qlt_not_le _ _ L B).
Qed.

Lemma to_float64_high (x : Q) :
  overflow_threshold <= x -> to_float64 x = PosInf.
Proof.
  intros H. unfold to_float64. apply Qle_bool_iff in H. now rewrite H.
Qed.

Lemma to_float64_low (x : Q) :
  x <= - overflow_threshold -> to_float64 x = NegInf.
Proof.
  intros H. unfold to_float64.
  destruct (Qle_bool overflow_threshold x) eqn:A.
  { apply Qle_bool_iff in A. exfalso.
    assert (C : overflow_threshold <= - overflow_threshold)
      by (eapply Qle_trans; eassumption).
    revert C. apply Qlt_not_le. reflexivity. }
  apply Qle_bool_iff in H. now rewrite H.
Qed.

(** The three ways a product can come out of [normal] with [loc = 0]. *)
Lemma range_cases (x : Q) :
  Qabs x < overflow_threshold \/ overflow_threshold <= x
  \/ x <= - overflow_threshold.
Proof.
  destruct (Qlt_le_dec x overflow_threshold) as [U|U]; [|now (right; left)].
  destruct (Qlt_le_dec (- overflow_threshold) x) as [L|L];
    [|now (right; right)].
  left. apply Qabs_Qlt_condition. now split.
Qed.

Lemma coordinate_finite (scale z : Q) :
  Qabs (scale * z) < overflow_threshold ->
  np_add (Finite 0) (to_float64 (scale * z)) = Finite (0 + scale * z).
Proof.
  intros H. rewrite (to_float64_finite _ H). cbn [np_add].
  apply to_float64_finite. now rewrite Qplus_0_l.
Qed.

Lemma coordinate_high (scale z : Q) :
  overflow_threshold <= scale * z ->
  np_add (Finite 0) (to_float64 (scale * z)) = PosInf.
Proof. intros H. now rewrite (to_float64_high _ H). Qed.

Lemma coordinate_low (scale z : Q) :
  scale * z <= - overflow_threshold ->
  np_add (Finite 0) (to_float64 (scale * z)) = NegInf.
Proof. intros H. now rewrite (to_float64_low _ H). Qed.

(** A field is a one-decimal number or an infinity. *)
Lemma coordinate_field (scale z : Q) :
  let f := format_1f_np (np_add (Finite 0) (to_float64 (scale * z))) in
  is_one_decimal f = true \/ f = "inf" \/ f = "-inf".
Proof.
  cbv zeta. destruct (range_cases (scale * z)) as [H|[H|H]].
  - left. rewrite (coordinate_finite _ _ H). apply format_1f_shape.
  - right. left. now rewrite (coordinate_high _ _ H).
  - right. right. now rewrite (coordinate_low _ _ H).
Qed.

Lemma coordinate_renders (scale z : Q) :
  renders scale z
          (format_1f_np (np_add (Finite 0) (to_float64 (scale * z)))).
Proof.
  split; [|split].
  - intros H. rewrite (coordinate_finite _ _ H). cbn [format_1f_np].
    exists (rounded_1f (0 + scale * z)). split; [apply parse_format_1f|].
    destruct (rounded_1f_near (0 + scale * z)) as [L U].
    apply Qle_trans with (1 # 20).
    + apply Qabs_Qle_condition. split.
      * apply Qle_minus_iff. apply Qle_minus_iff in L.
        setoid_replace (rounded_1f (0 + scale * z) - scale * z + - - (1 # 20))
          with (rounded_1f (0 + scale * z) + - (0 + scale * z - (1 # 20)))
          by ring.
        exact L.
      * apply Qle_minus_iff. apply Qle_minus_iff in U.
        setoid_replace ((1 # 20) + - (rounded_1f (0 + scale * z) - scale * z))
          with (0 + scale * z + (1 # 20) + - rounded_1f (0 + scale * z))
          by ring.
        exact U.
    + apply Qle_minus_iff.
      setoid_replace ((1 # 20) + Qabs (scale * z) / inject_Z (2 ^ 53)
                      + - (1 # 20))
        with (Qabs (scale * z) * / inject_Z (2 ^ 53)) by (unfold Qdiv; ring).
      apply Qmult_le_0_compat; [apply Qabs_nonneg|discriminate].
  - intros H. now rewrite (coordinate_high _ _ H).
  - intros H. now rewrite (coordinate_low _ _ H).
Qed.

Lemma Forall2_map_self {A B} (R : B -> A -> Prop) (g : A -> B)
    (P : A -> Prop) (l : list A) :
  Forall P l -> (forall a, P a -> R (g a) a) -> Forall2 R (map g l) l.
Proof.
  intros F H. induction F as [|a l Pa _ IH]; cbn [map]; constructor; auto.
Qed.

Section Draws.
Context {S : Type} {RS : RandomSource S} {FS : FloatStr}.

(** The arrays of lines 25-33 in terms of the successive draws. *)
Lemma sample_streams (n : nat) (position_scale velocity_scale mass_scale : Q)
    (s : S) :
  let d1 := draw_n (draw_n legacy_gauss 3) n s in
  let d2 := draw_n (draw_n legacy_gauss 3) n (snd d1) in
  let d3 := draw_n random_double n (snd d2) in
  let drawn :=
    map (fun u => mass_scale / 10 + (mass_scale * 2 - mass_scale / 10) * u)
        (fst d3) in
  let x := sample n position_scale velocity_scale mass_scale s in
  positions x
  = map (map (fun z => np_add (Finite 0) (to_float64 (position_scale * z))))
        (fst d1)
  /\ velocities x
     = map (map (fun z => np_add (Finite 0) (to_float64 (velocity_scale * z))))
           (fst d2)
  /\ draws x = drawn
  /\ masses x = fst (shuffle_from (List.length drawn - 1) drawn (snd d3)).
Proof.
  cbv zeta. unfold sample.
  destruct (draw_n (draw_n legacy_gauss 3) n s) as [zp s1]. cbn [fst snd].
  destruct (draw_n (draw_n legacy_gauss 3) n s1) as [zv s2]. cbn [fst snd].
  destruct (draw_n random_double n s2) as [us s3]. cbn [fst snd].
  destruct (shuffle_from _ _ s3) as [sh s4]. cbn [fst snd].
  repeat split.
Qed.

(** The mass, position and velocity values of a returned document. *)
Lemma returned_fields (n_bodies : Z)
    (position_scale velocity_scale mass_scale density : Q) (w w' : World S)
    (doc : string) :
  generate_bodies n_bodies position_scale velocity_scale mass_scale density w
  = (Ok doc, w') ->
  let x := sample (Z.to_nat n_bodies) position_scale velocity_scale
                  mass_scale (rng w) in
  field_values "mass" (read doc) = map format_1f (masses x)
  /\ field_values "position" (read doc) = map triple (positions x)
  /\ field_values "velocity" (read doc) = map triple (velocities x).
Proof.
  intros Run.
  destruct (generate_bodies_returns _ _ _ _ _ _ _ _ Run) as (Hn & Hp & Hv).
  destruct (generate_bodies_document n_bodies position_scale velocity_scale
              mass_scale density w Hn Hp Hv) as (doc' & Run' & _ & Read).
  rewrite Run in Run'. inversion Run'; subst doc'. clear Run'.
  destruct (sample_shape (Z.to_nat n_bodies) position_scale velocity_scale
              mass_scale (rng w)) as (Lp & Lv & _ & Lm & _).
  cbv zeta.
  set (x := sample (Z.to_nat n_bodies) position_scale velocity_scale
                   mass_scale (rng w)) in *.
  rewrite Read.
  destruct (field_values_document n_bodies density (masses x) (positions x)
              (velocities x)) as (_ & Em & _ & Ep & Ev & _).
  rewrite Em, Ep, Ev. unfold range.
  split; [rewrite <- Lm at 1; apply nth_seq_map|].
  split; [rewrite <- Lp at 1; apply nth_seq_map|].
  rewrite <- Lv at 1. apply nth_seq_map.
Qed.

(** The three fields of a value made from a row of three deviates. *)
Lemma triple_of_row (scale : Q) (row : list Q) :
  List.length row = 3%nat ->
  exists z0 z1 z2,
    row = [z0; z1; z2]
    /\ split ","%char
         (triple (map (fun z => np_add (Finite 0) (to_float64 (scale * z)))
                      row))
       = [ format_1f_np (np_add (Finite 0) (to_float64 (scale * z0)));
           format_1f_np (np_add (Finite 0) (to_float64 (scale * z1)));
           format_1f_np (np_add (Finite 0) (to_float64 (scale * z2))) ].
Proof.
  intros L.
  destruct row as [|z0 [|z1 [|z2 [|z3 row]]]]; try discriminate L.
  exists z0, z1, z2. split; [reflexivity|]. apply split_triple.
Qed.

(** The uniform draws, their range and their permutation. *)
Lemma drawn_masses (n : nat) (mass_scale : Q) (s : S) :
  let us := fst (draw_n random_double n s) in
  let drawn :=
    map (fun u => mass_scale / 10 + (mass_scale * 2 - mass_scale / 10) * u)
        us in
  List.length us = n
  /\ Forall (fun u => 0 <= u /\ u < 1) us
  /\ List.length drawn = n
  /\ forall s',
       Permutation drawn (fst (shuffle_from (List.length drawn - 1) drawn s')).
Proof.
  cbv zeta. split; [apply draw_n_length|].
  split; [apply draw_n_Forall, random_double_range|].
  split; [rewrite length_map; apply draw_n_length|].
  intros s'. apply shuffle_from_Permutation.
Qed.

End Draws.

End DrawFacts.

Import DrawFacts.

(** * The claims *)

Import Script ScriptSource.

(** The document for two bodies on the scripted source. *)
Example demo_document :
  fst (generate_bodies 2 1000 30 (125 # 100) (1 # 10) (start demo))
  = Ok "# Physics system setup

# System name:
name=Random System (2 bodies)
# Gravitational constant (unrealistic units)
gravity=10.0
# Simulation time step (seconds)
timeStep=0.004
# Keys for defined bodies
bodies=body0 body1

# Body 0:
body0.name=Body 0
body0.mass=1.3
body0.density=0.1
body0.position=1000.0,2000.0,3000.0
body0.velocity=210.0,240.0,270.0
body0.color=200,200,200

# Body 1:
body1.name=Body 1
body1.mass=0.1
body1.density=0.1
body1.position=-0.4,5000.0,6000.0
body1.velocity=300.0,330.0,360.0
body1.color=200,200,200
".
Proof. vm_compute. reflexivity. Qed.

(** Rounding to one decimal place: ties go to the even digit, and a
    negative number that rounds to zero keeps its sign. *)
Example format_1f_samples :
  map format_1f [25 # 100; 75 # 100; -4 # 100; 123456 # 100; -99999 # 10000]
  = ["0.2"; "0.8"; "-0.0"; "1234.6"; "-10.0"].
Proof. vm_compute. reflexivity. Qed.

(** C1: for a body count N >= 0 (and scales numpy accepts) and every state
    of the random stream, generate_bodies returns a text that the
    key=value reader turns into the global keys name, gravity, timeStep and
    bodies, and into exactly N records, one per body key body{i}; every
    record has the fields name, mass, density, position, velocity and
    color, once each and with a non-empty value; each of the six suffixes
    occurs exactly N times. *)
Theorem generate_bodies_records {S : Type} {RS : RandomSource S}
    {FS : FloatStr} (n_bodies : Z)
    (position_scale velocity_scale mass_scale density : Q) (w : World S) :
  (0 <= n_bodies)%Z -> 0 <= position_scale -> 0 <= velocity_scale ->
  exists doc w',
    generate_bodies n_bodies position_scale velocity_scale mass_scale density w
    = (Ok doc, w')
    /\ global_keys (read doc) = ["name"; "gravity"; "timeStep"; "bodies"]
    /\ List.length (nodup string_dec (owners (read doc))) = Z.to_nat n_bodies
    /\ (forall o, In o (owners (read doc))
                  <-> exists i, (i < Z.to_nat n_bodies)%nat /\ o = body_key i)
    /\ (forall i, (i < Z.to_nat n_bodies)%nat ->
          map fst (record (body_key i) (read doc)) = field_names
          /\ Forall (fun fv => is_empty (snd fv) = false)
                    (record (body_key i) (read doc)))
    /\ (forall field, In field field_names ->
          occurrences field (read doc) = Z.to_nat n_bodies).
Proof.
  intros Hn Hp Hv.
  destruct (generate_bodies_document n_bodies position_scale velocity_scale
              mass_scale density w Hn Hp Hv) as (doc & Run & _ & Read).
  exists doc. eexists. split; [exact Run|]. rewrite Read.
  split; [apply global_keys_document|].
  split; [apply distinct_owners|].
  split.
  { intros o. rewrite owners_iff, in_map_iff. unfold range. split.
    - intros (i & Ho & Hi). apply in_seq in Hi. exists i. split; [lia|auto].
    - intros (i & Hi & Ho). exists i. split; [auto|]. apply in_seq. lia. }
  split.
  { intros i Hi. rewrite record_document by assumption. split; [reflexivity|].
    repeat constructor; cbn [snd];
      auto using format_1f_nonempty, str_float_nonempty,
                 triple_nonempty. }
  intros field. apply occurrences_document.
Qed.

Lemma generate_bodies_records_witness :
  (0 <= 2)%Z /\ 0 <= 1000 /\ 0 <= 30 /\
  exists doc w',
    generate_bodies 2 1000 30 10000 (1 # 10) (Script.start Script.demo)
    = (Ok doc, w')
    /\ global_keys (read doc) = ["name"; "gravity"; "timeStep"; "bodies"]
    /\ List.length (nodup string_dec (owners (read doc))) = Z.to_nat 2
    /\ (forall o, In o (owners (read doc))
                  <-> exists i, (i < Z.to_nat 2)%nat /\ o = body_key i)
    /\ (forall i, (i < Z.to_nat 2)%nat ->
          map fst (record (body_key i) (read doc)) = field_names
          /\ Forall (fun fv => is_empty (snd fv) = false)
                    (record (body_key i) (read doc)))
    /\ (forall field, In field field_names ->
          occurrences field (read doc) = Z.to_nat 2).
Proof.
  assert (H2 : (0 <= 2)%Z) by lia.
  assert (Hp : 0 <= 1000) by (unfold Qle; simpl; lia).
  assert (Hv : 0 <= 30) by (unfold Qle; simpl; lia).
  repeat split; try assumption.
  apply (generate_bodies_records 2 1000 30 10000 (1 # 10)
           (Script.start Script.demo) H2 Hp Hv).
Defined.

(** C2: for N >= 0 the returned document has exactly one [bodies=] line,
    and its value lists exactly the N keys body0 ... body{N-1}, separated
    by blanks, in ascending order. *)
Theorem bodies_line_lists_keys {S : Type} {RS : RandomSource S}
    {FS : FloatStr} (n_bodies : Z)
    (position_scale velocity_scale mass_scale density : Q) (w : World S) :
  (0 <= n_bodies)%Z -> 0 <= position_scale -> 0 <= velocity_scale ->
  exists doc w' value,
    generate_bodies n_bodies position_scale velocity_scale mass_scale density w
    = (Ok doc, w')
    /\ In ("bodies=" ++ value) (lines doc)
    /\ global_value "bodies" (read doc) = Some value
    /\ words value
       = map (fun i => "body" ++ str_int (Z.of_nat i))
             (seq 0 (Z.to_nat n_bodies))
    /\ List.length (words value) = Z.to_nat n_bodies.
Proof.
  intros Hn Hp Hv.
  destruct (generate_bodies_document n_bodies position_scale velocity_scale
              mass_scale density w Hn Hp Hv) as (doc & Run & Lines & Read).
  exists doc. eexists. exists (join " " (map body_key (range n_bodies))).
  split; [exact Run|]. rewrite Lines, Read.
  split.
  { unfold document_lines. apply in_or_app. left. unfold header.
    do 9 right. left. reflexivity. }
  split.
  { apply global_value_document. unfold header_entries. do 3 right. now left. }
  rewrite body_keys_words. split; [reflexivity|].
  unfold range. now rewrite length_map, length_seq.
Qed.

Lemma bodies_line_lists_keys_witness :
  (0 <= 2)%Z /\ 0 <= 1000 /\ 0 <= 30 /\
  exists doc w' value,
    generate_bodies 2 1000 30 10000 (1 # 10) (Script.start Script.demo)
    = (Ok doc, w')
    /\ In ("bodies=" ++ value) (lines doc)
    /\ global_value "bodies" (read doc) = Some value
    /\ words value
       = map (fun i => "body" ++ str_int (Z.of_nat i)) (seq 0 (Z.to_nat 2))
    /\ List.length (words value) = Z.to_nat 2.
Proof.
  assert (H2 : (0 <= 2)%Z) by lia.
  assert (Hp : 0 <= 1000) by (unfold Qle; simpl; lia).
  assert (Hv : 0 <= 30) by (unfold Qle; simpl; lia).
  repeat split; try assumption.
  apply (bodies_line_lists_keys 2 1000 30 10000 (1 # 10)
           (Script.start Script.demo) H2 Hp Hv).
Defined.

(** C4: whatever the body count and the scale parameters, a document that
    generate_bodies returns contains the lines [gravity=10.0] and
    [timeStep=0.004], and these are its only gravity and timeStep entries;
    a document is returned for every N >= 0 and scales numpy accepts. *)
Theorem gravity_timestep_fixed {S : Type} {RS : RandomSource S}
    {FS : FloatStr} (n_bodies : Z)
    (position_scale velocity_scale mass_scale density : Q) (w : World S) :
  (forall doc w',
      generate_bodies n_bodies position_scale velocity_scale mass_scale
                      density w = (Ok doc, w') ->
      In "gravity=10.0" (lines doc) /\ In "timeStep=0.004" (lines doc)
      /\ global_value "gravity" (read doc) = Some "10.0"
      /\ global_value "timeStep" (read doc) = Some "0.004")
  /\ ((0 <= n_bodies)%Z -> 0 <= position_scale -> 0 <= velocity_scale ->
      exists doc w',
        generate_bodies n_bodies position_scale velocity_scale mass_scale
                        density w = (Ok doc, w')).
Proof.
  split.
  - intros doc w' Run.
    destruct (generate_bodies_returns _ _ _ _ _ _ _ _ Run) as (Hn & Hp & Hv).
    destruct (generate_bodies_document n_bodies position_scale velocity_scale
                mass_scale density w Hn Hp Hv) as (doc' & Run' & Lines & Read).
    rewrite Run in Run'. inversion Run'; subst doc'. rewrite Lines, Read.
    split; [|split; [|split]].
    + unfold document_lines. apply in_or_app. left. unfold header.
      do 5 right. now left.
    + unfold document_lines. apply in_or_app. left. unfold header.
      do 7 right. now left.
    + apply global_value_document. unfold header_entries. right. now left.
    + apply global_value_document. unfold header_entries. do 2 right. now left.
  - intros Hn Hp Hv.
    destruct (generate_bodies_document n_bodies position_scale velocity_scale
                mass_scale density w Hn Hp Hv) as (doc & Run & _).
    exists doc. eexists. exact Run.
Qed.

Lemma gravity_timestep_fixed_witness :
  exists doc w',
    generate_bodies 2 1000 30 10000 (1 # 10) (Script.start Script.demo)
    = (Ok doc, w')
    /\ In "gravity=10.0" (lines doc) /\ In "timeStep=0.004" (lines doc)
    /\ global_value "gravity" (read doc) = Some "10.0"
    /\ global_value "timeStep" (read doc) = Some "0.004".
Proof.
  assert (H2 : (0 <= 2)%Z) by lia.
  assert (Hp : 0 <= 1000) by (unfold Qle; simpl; lia).
  assert (Hv : 0 <= 30) by (unfold Qle; simpl; lia).
  destruct (gravity_timestep_fixed 2 1000 30 10000 (1 # 10)
              (Script.start Script.demo)) as [Fixed Returns].
  destruct (Returns H2 Hp Hv) as (doc & w' & Run).
  exists doc, w'. split; [exact Run|]. exact (Fixed doc w' Run).
Defined.

(** C5: for N >= 0 the keys listed on the [bodies=] line are pairwise
    distinct, they are exactly the owners of the scoped entries of the
    document, and the sections of the document, in order, are headed by
    exactly the listed keys: each listed key heads one section and no
    section has an unlisted key. *)
Theorem bodies_line_matches_sections {S : Type} {RS : RandomSource S}
    {FS : FloatStr} (n_bodies : Z)
    (position_scale velocity_scale mass_scale density : Q) (w : World S) :
  (0 <= n_bodies)%Z -> 0 <= position_scale -> 0 <= velocity_scale ->
  exists doc w' value,
    generate_bodies n_bodies position_scale velocity_scale mass_scale density w
    = (Ok doc, w')
    /\ global_value "bodies" (read doc) = Some value
    /\ NoDup (words value)
    /\ sections (read doc) = words value
    /\ (forall key, In key (words value) <-> In key (owners (read doc))).
Proof.
  intros Hn Hp Hv.
  destruct (generate_bodies_document n_bodies position_scale velocity_scale
              mass_scale density w Hn Hp Hv) as (doc & Run & _ & Read).
  exists doc. eexists. exists (join " " (map body_key (range n_bodies))).
  split; [exact Run|]. rewrite Read, body_keys_words.
  split.
  { apply global_value_document. unfold header_entries. do 3 right. now left. }
  split; [apply body_keys_NoDup|].
  split; [apply sections_document|].
  intros key. symmetry. apply owners_iff.
Qed.

Lemma bodies_line_matches_sections_witness :
  (0 <= 2)%Z /\ 0 <= 1000 /\ 0 <= 30 /\
  exists doc w' value,
    generate_bodies 2 1000 30 10000 (1 # 10) (Script.start Script.demo)
    = (Ok doc, w')
    /\ global_value "bodies" (read doc) = Some value
    /\ NoDup (words value)
    /\ sections (read doc) = words value
    /\ (forall key, In key (words value) <-> In key (owners (read doc))).
Proof.
  assert (H2 : (0 <= 2)%Z) by lia.
  assert (Hp : 0 <= 1000) by (unfold Qle; simpl; lia).
  assert (Hv : 0 <= 30) by (unfold Qle; simpl; lia).
  repeat split; try assumption.
  apply (bodies_line_matches_sections 2 1000 30 10000 (1 # 10)
           (Script.start Script.demo) H2 Hp Hv).
Defined.

(** C6: for n_bodies = 0 (and scales numpy accepts) generate_bodies
    returns, without drawing from the random stream, the eleven header
    lines only: the [bodies=] value is empty, there is no section and no
    key with one of the six per-body suffixes. *)
Theorem zero_bodies_document {S : Type} {RS : RandomSource S}
    {FS : FloatStr}
    (position_scale velocity_scale mass_scale density : Q) (w : World S) :
  0 <= position_scale -> 0 <= velocity_scale ->
  exists doc,
    generate_bodies 0 position_scale velocity_scale mass_scale density w
    = (Ok doc, w)
    /\ lines doc
       = [ "# Physics system setup"; "";
           "# System name:";
           "name=Random System (0 bodies)";
           "# Gravitational constant (unrealistic units)";
           "gravity=10.0";
           "# Simulation time step (seconds)";
           "timeStep=0.004";
           "# Keys for defined bodies";
           "bodies=";
           "" ]
    /\ read doc
       = [ Global "name" "Random System (0 bodies)";
           Global "gravity" "10.0";
           Global "timeStep" "0.004";
           Global "bodies" "" ]
    /\ global_value "bodies" (read doc) = Some ""
    /\ words "" = []
    /\ sections (read doc) = []
    /\ (forall field, In field field_names -> occurrences field (read doc) = 0%nat).
Proof.
  intros Hp Hv.
  destruct (generate_bodies_document 0 position_scale velocity_scale
              mass_scale density w (Z.le_refl 0) Hp Hv)
    as (doc & Run & Lines & Read).
  exists doc. cbn in Run, Lines, Read. destruct w as [s ev].
  split; [exact Run|]. rewrite Lines, Read.
  repeat split; reflexivity.
Qed.

Lemma zero_bodies_document_witness :
  0 <= 1000 /\ 0 <= 30 /\
  exists doc,
    generate_bodies 0 1000 30 10000 (1 # 10) (Script.start Script.demo)
    = (Ok doc, Script.start Script.demo)
    /\ lines doc
       = [ "# Physics system setup"; "";
           "# System name:";
           "name=Random System (0 bodies)";
           "# Gravitational constant (unrealistic units)";
           "gravity=10.0";
           "# Simulation time step (seconds)";
           "timeStep=0.004";
           "# Keys for defined bodies";
           "bodies=";
           "" ]
    /\ read doc
       = [ Global "name" "Random System (0 bodies)";
           Global "gravity" "10.0";
           Global "timeStep" "0.004";
           Global "bodies" "" ]
    /\ global_value "bodies" (read doc) = Some ""
    /\ words "" = []
    /\ sections (read doc) = []
    /\ (forall field, In field field_names -> occurrences field (read doc) = 0%nat).
Proof.
  assert (Hp : 0 <= 1000) by (unfold Qle; simpl; lia).
  assert (Hv : 0 <= 30) by (unfold Qle; simpl; lia).
  split; [exact Hp|]. split; [exact Hv|].
  apply (zero_bodies_document 1000 30 10000 (1 # 10)
           (Script.start Script.demo) Hp Hv).
Defined.

(** C7 as stated fails: with position_scale = 10^308 and a first deviate
    of 2 the product overflows binary64, and the position line of body 0
    reads [inf,0.0,0.0]: its first field is not a decimal number. *)
Lemma position_overflow_prints_inf :
  exists doc w' value,
    generate_bodies 1 (inject_Z (10 ^ 308)) 30 10000 (1 # 10)
                    (Script.start (mkTape [2; 0; 0; 0; 0; 0] [] []))
    = (Ok doc, w')
    /\ field_values "position" (read doc) = [value]
    /\ split ","%char value = ["inf"; "0.0"; "0.0"]
    /\ ~ (exists a b c,
            split ","%char value = [a; b; c]
            /\ is_one_decimal a = true /\ is_one_decimal b = true
            /\ is_one_decimal c = true).
Proof.
  eexists. eexists. exists "inf,0.0,0.0".
  split; [vm_compute; reflexivity|].
  split; [vm_compute; reflexivity|].
  split; [vm_compute; reflexivity|].
  intros (a & b & c & E & Ha & _).
  vm_compute in E. inversion E; subst. discriminate Ha.
Qed.

(** C7, amended: in every returned document there are N position and N
    velocity values, and each splits at the commas into exactly three
    fields, each a decimal number with one fractional digit or, where the
    product of the scale and the deviate overflows binary64, [inf] or
    [-inf].  When all the products scale * z of the N rows of three
    deviates drawn for the positions are below the overflow threshold in
    magnitude, every position value consists of three decimal numbers with
    one fractional digit; likewise for the velocities and the next N rows.
    A document is returned for N >= 0, positive scales and a mass range that
    is finite in binary64. *)
Theorem position_velocity_triples {S : Type} {RS : RandomSource S}
    {FS : FloatStr} (n_bodies : Z)
    (position_scale velocity_scale mass_scale density : Q) (w : World S) :
  let N := Z.to_nat n_bodies in
  let zp := fst (draw_n (draw_n legacy_gauss 3) N (rng w)) in
  let s1 := snd (draw_n (draw_n legacy_gauss 3) N (rng w)) in
  let zv := fst (draw_n (draw_n legacy_gauss 3) N s1) in
  (forall doc w',
      generate_bodies n_bodies position_scale velocity_scale mass_scale
                      density w = (Ok doc, w') ->
      List.length (field_values "position" (read doc)) = N
      /\ List.length (field_values "velocity" (read doc)) = N
      /\ (forall value,
            In value (field_values "position" (read doc))
            \/ In value (field_values "velocity" (read doc)) ->
            exists a b c,
              split ","%char value = [a; b; c]
              /\ Forall (fun f => is_one_decimal f = true
                                  \/ f = "inf" \/ f = "-inf") [a; b; c])
      /\ (Forall (Forall (fun z => Qabs (position_scale * z)
                                   < overflow_threshold)) zp ->
          forall value,
            In value (field_values "position" (read doc)) ->
            exists a b c,
              split ","%char value = [a; b; c]
              /\ is_one_decimal a = true /\ is_one_decimal b = true
              /\ is_one_decimal c = true
              /\ (exists x y z,
                    parse_decimal a = Some x /\ parse_decimal b = Some y
                    /\ parse_decimal c = Some z))
      /\ (Forall (Forall (fun z => Qabs (velocity_scale * z)
                                   < overflow_threshold)) zv ->
          forall value,
            In value (field_values "velocity" (read doc)) ->
            exists a b c,
              split ","%char value = [a; b; c]
              /\ is_one_decimal a = true /\ is_one_decimal b = true
              /\ is_one_decimal c = true
              /\ (exists x y z,
                    parse_decimal a = Some x /\ parse_decimal b = Some y
                    /\ parse_decimal c = Some z)))
  /\ ((0 <= n_bodies)%Z -> 0 < position_scale -> 0 < velocity_scale ->
      Qabs (mass_scale * 2) < overflow_threshold ->
      exists doc w',
        generate_bodies n_bodies position_scale velocity_scale mass_scale
                        density w = (Ok doc, w')).
Proof.
  cbv zeta. split.
  2:{ intros Hn Hp Hv _. eexists. eexists.
      apply generate_bodies_run; [exact Hn| |]; now apply Qlt_le_weak. }
  intros doc w' Run.
  destruct (returned_fields _ _ _ _ _ _ _ _ Run) as (_ & Ep & Ev).
  destruct (sample_streams (Z.to_nat n_bodies) position_scale velocity_scale
              mass_scale (rng w)) as (Sp & Sv & _).
  rewrite Ep, Ev, Sp, Sv, !length_map, !draw_n_length.
  pose proof (matrix_rows legacy_gauss 3 (Z.to_nat n_bodies) (rng w)) as Rp.
  pose proof (matrix_rows legacy_gauss 3 (Z.to_nat n_bodies)
                (snd (draw_n (draw_n legacy_gauss 3) (Z.to_nat n_bodies)
                             (rng w)))) as Rv.
  rewrite Forall_forall in Rp, Rv.
  assert (Any : forall scale row,
             List.length row = 3%nat ->
             exists a b c,
               split ","%char
                 (triple (map (fun z => np_add (Finite 0)
                                               (to_float64 (scale * z))) row))
               = [a; b; c]
               /\ Forall (fun f => is_one_decimal f = true
                                   \/ f = "inf" \/ f = "-inf") [a; b; c]).
  { intros scale row L.
    destruct (triple_of_row scale row L) as (z0 & z1 & z2 & _ & E).
    do 3 eexists. split; [exact E|].
    constructor; [apply coordinate_field|].
    constructor; [apply coordinate_field|].
    constructor; [apply coordinate_field|constructor]. }
  assert (Fin : forall scale row,
             List.length row = 3%nat ->
             Forall (fun z => Qabs (scale * z) < overflow_threshold) row ->
             exists a b c,
               split ","%char
                 (triple (map (fun z => np_add (Finite 0)
                                               (to_float64 (scale * z))) row))
               = [a; b; c]
               /\ is_one_decimal a = true /\ is_one_decimal b = true
               /\ is_one_decimal c = true
               /\ (exists x y z,
                     parse_decimal a = Some x /\ parse_decimal b = Some y
                     /\ parse_decimal c = Some z)).
  { intros scale row L F.
    destruct (triple_of_row scale row L) as (z0 & z1 & z2 & -> & E).
    inversion F as [|? ? F0 F']; subst.
    inversion F' as [|? ? F1 F'']; subst.
    inversion F'' as [|? ? F2 _]; subst.
    do 3 eexists. split; [exact E|].
    rewrite (coordinate_finite _ _ F0), (coordinate_finite _ _ F1),
      (coordinate_finite _ _ F2).
    cbn [format_1f_np]. rewrite !format_1f_shape.
    split; [reflexivity|]. split; [reflexivity|]. split; [reflexivity|].
    do 3 eexists. rewrite !parse_format_1f.
    split; [reflexivity|]. split; reflexivity. }
  split; [reflexivity|]. split; [reflexivity|]. split; [|split].
  - intros value [I|I]; apply in_map_iff in I; destruct I as (r & <- & I);
      apply in_map_iff in I; destruct I as (row & <- & I); apply Any; auto.
  - intros F value I. apply in_map_iff in I. destruct I as (r & <- & I).
    apply in_map_iff in I. destruct I as (row & <- & I).
    rewrite Forall_forall in F. apply Fin; auto.
  - intros F value I. apply in_map_iff in I. destruct I as (r & <- & I).
    apply in_map_iff in I. destruct I as (row & <- & I).
    rewrite Forall_forall in F. apply Fin; auto.
Qed.

Lemma position_velocity_triples_witness :
  exists doc w',
    generate_bodies 2 1000 30 10000 (1 # 10) (Script.start Script.demo)
    = (Ok doc, w')
    /\ List.length (field_values "position" (read doc)) = 2%nat
    /\ List.length (field_values "velocity" (read doc)) = 2%nat
    /\ (forall value,
          In value (field_values "position" (read doc)) ->
          exists a b c,
            split ","%char value = [a; b; c]
            /\ is_one_decimal a = true /\ is_one_decimal b = true
            /\ is_one_decimal c = true
            /\ (exists x y z,
                  parse_decimal a = Some x /\ parse_decimal b = Some y
                  /\ parse_decimal c = Some z)).
Proof.
  destruct (position_velocity_triples 2 1000 30 10000 (1 # 10)
              (Script.start Script.demo)) as [Content Returns].
  assert (H2 : (0 <= 2)%Z) by lia.
  assert (Hp : 0 < 1000) by reflexivity.
  assert (Hv : 0 < 30) by reflexivity.
  assert (Hm : Qabs (10000 * 2) < overflow_threshold) by reflexivity.
  destruct (Returns H2 Hp Hv Hm) as (doc & w' & Run).
  destruct (Content doc w' Run) as (Lp & Lv & _ & Fp & _).
  exists doc, w'. split; [exact Run|]. split; [exact Lp|]. split; [exact Lv|].
  apply Fp.
  assert (E : fst (draw_n (draw_n legacy_gauss 3) (Z.to_nat 2)
                          (rng (Script.start Script.demo)))
              = [[1; 2; 3]; [-4 # 10000; 5; 6]]) by (vm_compute; reflexivity).
  rewrite E.
  repeat (apply Forall_cons || apply Forall_nil); reflexivity.
Defined.




(** C8: for every input visualize_distributions writes no file: it either
    raises without any effect on the environment or its only effect is to
    show one figure (which it does whenever there is at least one body and
    numpy accepts the scales).  The entry point nevertheless prints
    "Visualization saved to 'body_distributions.png'", while the only file
    it writes is random_system.properties. *)
Theorem visualize_writes_no_file {S : Type} {RS : RandomSource S}
    {FS : FloatStr} {ZP : ZipfPmf} (n_bodies : Z)
    (position_scale velocity_scale mass_scale zipf_param : Q) (w : World S) :
  let r := visualize_distributions n_bodies position_scale velocity_scale
                                   mass_scale zipf_param w in
  files_written (effects (snd r)) = files_written (effects w)
  /\ ((exists e, fst r = Raise e /\ effects (snd r) = effects w)
      \/ (exists fig,
            fst r = Ok tt /\ effects (snd r) = (effects w ++ [Show fig])%list))
  /\ ((1 <= n_bodies)%Z -> 0 <= position_scale -> 0 <= velocity_scale ->
      fst r = Ok tt)
  /\ (exists w',
        main w = (Ok tt, w')
        /\ In (Stdout saved_message) (effects w')
        /\ files_written (effects w')
           = (files_written (effects w) ++ ["random_system.properties"])%list).
Proof.
  cbv zeta.
  pose proof (shows_only_visualize n_bodies position_scale velocity_scale
                mass_scale zipf_param w) as Sh.
  split; [|split; [|split]].
  - destruct Sh as [(e & _ & E)|(a & fig & _ & E)]; rewrite E;
      [reflexivity|].
    unfold files_written. rewrite flat_map_app. cbn. apply app_nil_r.
  - destruct Sh as [(e & R & E)|(a & fig & R & E)].
    + left. exists e. auto.
    + right. exists fig. destruct a. auto.
  - intros Hn Hp Hv.
    destruct (visualize_run n_bodies position_scale velocity_scale mass_scale
                zipf_param w Hn Hp Hv) as (fig & s' & R).
    now rewrite R.
  - destruct (main_run w) as (doc & fig & s' & stats & R).
    eexists. split; [exact R|]. cbn [effects]. split.
    + apply in_or_app. right. apply in_or_app. left. do 3 right. now left.
    + unfold files_written. rewrite !flat_map_app. cbn [flat_map app].
      f_equal. clear R.
      induction stats as [|t stats IH]; [reflexivity|exact IH].
Qed.

Lemma visualize_writes_no_file_witness :
  (1 <= 2)%Z /\ 0 <= 1000 /\ 0 <= 30 /\
  fst (visualize_distributions 2 1000 30 10000 (3 # 2)
         (Script.start Script.demo)) = Ok tt.
Proof.
  assert (H2 : (1 <= 2)%Z) by lia.
  assert (Hp : 0 <= 1000) by (unfold Qle; simpl; lia).
  assert (Hv : 0 <= 30) by (unfold Qle; simpl; lia).
  split; [exact H2|]. split; [exact Hp|]. split; [exact Hv|].
  destruct (visualize_writes_no_file 2 1000 30 10000 (3 # 2)
              (Script.start Script.demo)) as (_ & _ & Shown & _).
  exact (Shown H2 Hp Hv).
Defined.

(** C9: generate_bodies acts on nothing but the random stream: a call
    leaves the record of file and console output as it found it, and its
    outcome (the returned document or the raised error) and the random state
    it leaves depend only on the arguments and the random state it starts
    from. *)
Theorem generate_bodies_pure {S : Type} {RS : RandomSource S}
    {FS : FloatStr} (n_bodies : Z)
    (position_scale velocity_scale mass_scale density : Q) :
  (forall w : World S,
      effects (snd (generate_bodies n_bodies position_scale velocity_scale
                                    mass_scale density w)) = effects w)
  /\ (forall w1 w2 : World S,
        rng w1 = rng w2 ->
        fst (generate_bodies n_bodies position_scale velocity_scale mass_scale
                             density w1)
        = fst (generate_bodies n_bodies position_scale velocity_scale
                               mass_scale density w2)
        /\ rng (snd (generate_bodies n_bodies position_scale velocity_scale
                                     mass_scale density w1))
           = rng (snd (generate_bodies n_bodies position_scale velocity_scale
                                       mass_scale density w2))).
Proof.
  split.
  - apply quiet_generate_bodies.
  - apply rng_only_generate_bodies.
Qed.

Lemma generate_bodies_pure_witness :
  let w1 := Script.start Script.demo in
  let w2 := mkWorld Script.demo [Stdout "earlier output"] in
  rng w1 = rng w2
  /\ fst (generate_bodies 2 1000 30 10000 (1 # 10) w1)
     = fst (generate_bodies 2 1000 30 10000 (1 # 10) w2)
  /\ effects (snd (generate_bodies 2 1000 30 10000 (1 # 10) w2))
     = [Stdout "earlier output"].
Proof.
  cbv zeta.
  destruct (generate_bodies_pure (S := Tape) 2 1000 30 10000 (1 # 10))
    as [Quiet Same].
  split; [reflexivity|]. split.
  - exact (proj1 (Same (Script.start Script.demo)
                       (mkWorld Script.demo [Stdout "earlier output"])
                       eq_refl)).
  - exact (Quiet (mkWorld Script.demo [Stdout "earlier output"])).
Defined.

(** C10: for a negative body count generate_bodies returns no document:
    the first sampling step, the draw of the N x 3 positions, raises; no
    random number has been drawn and nothing has been output.  When the
    position scale is one numpy accepts, the error is the rejection of the
    negative dimension. *)
Theorem negative_count_raises {S : Type} {RS : RandomSource S}
    {FS : FloatStr} (n_bodies : Z)
    (position_scale velocity_scale mass_scale density : Q) (w : World S) :
  (n_bodies < 0)%Z ->
  (exists msg,
      generate_bodies n_bodies position_scale velocity_scale mass_scale
                      density w = (Raise (ValueError msg), w)
      /\ normal 0 position_scale n_bodies 3 w = (Raise (ValueError msg), w))
  /\ (0 <= position_scale ->
      generate_bodies n_bodies position_scale velocity_scale mass_scale
                      density w = (Raise negative_dimensions, w)).
Proof.
  intros Hn. apply Z.ltb_lt in Hn.
  destruct (Qlt_bool position_scale 0) eqn:Hp.
  - pose proof (normal_bad_scale 0 position_scale n_bodies 3 w Hp) as N.
    split.
    + eexists. split; [|exact N]. unfold generate_bodies.
      now rewrite (bind_raise _ _ _ _ _ N).
    + intros H. apply Qlt_bool_false in H. congruence.
  - pose proof (normal_bad_rows 0 position_scale n_bodies 3 w Hp Hn) as N.
    split.
    + eexists. split; [|exact N]. unfold generate_bodies.
      now rewrite (bind_raise _ _ _ _ _ N).
    + intros _. unfold generate_bodies.
      now rewrite (bind_raise _ _ _ _ _ N).
Qed.

Lemma negative_count_raises_witness :
  (-1 < 0)%Z /\ 0 <= 1000 /\
  generate_bodies (-1) 1000 30 10000 (1 # 10) (Script.start Script.demo)
  = (Raise negative_dimensions, Script.start Script.demo).
Proof.
  assert (Hn : (-1 < 0)%Z) by lia.
  assert (Hp : 0 <= 1000) by (unfold Qle; simpl; lia).
  split; [exact Hn|]. split; [exact Hp|].
  exact (proj2 (negative_count_raises (-1) 1000 30 10000 (1 # 10)
                  (Script.start Script.demo) Hn) Hp).
Defined.

(** * Further properties of the generator *)

Module OutcomeFacts.

Lemma flat_map_length_const {A B} (g : A -> list B) (k : nat) (l : list A) :
  (forall x, List.length (g x) = k) ->
  List.length (flat_map g l) = (k * List.length l)%nat.
Proof.
  intros H. induction l as [|x l IH]; cbn [flat_map List.length]; [lia|].
  rewrite length_app, H, IH. lia.
Qed.

Lemma filter_flat_map_count {A B} (f : B -> bool) (g : A -> list B) (k : nat)
    (l : list A) :
  (forall x, List.length (filter f (g x)) = k) ->
  List.length (filter f (flat_map g l)) = (k * List.length l)%nat.
Proof.
  intros H. induction l as [|x l IH]; cbn [flat_map List.length]; [cbn; lia|].
  rewrite filter_app, length_app, H, IH. lia.
Qed.

Lemma last_sections {A} (g : A -> list string) (h : list string) (l : list A) :
  last h "?" = "" -> (forall x, exists r, g x = (r ++ [""])%list) ->
  last (h ++ flat_map g l) "?" = "".
Proof.
  intros Hh Hg. induction l as [|x l IH] using rev_ind.
  - cbn [flat_map]. now rewrite app_nil_r.
  - rewrite flat_map_app. cbn [flat_map]. rewrite app_nil_r.
    destruct (Hg x) as (r & ->). rewrite !app_assoc. apply last_last.
Qed.

Section Outcome.
Context {S : Type} {RS : RandomSource S} {FS : FloatStr}.

(** A negative scale of the second normal draw is met after the first
    draw has been made. *)
Lemma generate_bodies_bad_velocity (n_bodies : Z)
    (position_scale velocity_scale mass_scale density : Q) (w : World S) :
  Qlt_bool position_scale 0 = false -> (n_bodies <? 0)%Z = false ->
  Qlt_bool velocity_scale 0 = true ->
  generate_bodies n_bodies position_scale velocity_scale mass_scale density w
  = (Raise (ValueError "scale < 0"),
     mkWorld
       (snd (draw_n (draw_n legacy_gauss 3) (Z.to_nat n_bodies) (rng w)))
       (effects w)).
Proof.
  intros Hp Hn Hv. unfold generate_bodies.
  rewrite (bind_ok _ _ _ _ _ (normal_ok _ _ _ _ _ Hp Hn)).
  now rewrite (bind_raise _ _ _ _ _ (normal_bad_scale _ _ _ _ _ Hv)).
Qed.

Lemma document_lines_count (n_bodies : Z) (density : Q) (ms : list Q)
    (ps vs : list (list npfloat)) :
  let ls := document_lines n_bodies density ms ps vs in
  List.length ls = (11 + 8 * Z.to_nat n_bodies)%nat
  /\ List.length (filter is_empty ls) = (2 + Z.to_nat n_bodies)%nat
  /\ List.length (filter is_comment ls) = (5 + Z.to_nat n_bodies)%nat
  /\ last ls "?" = "".
Proof.
  cbv zeta. unfold document_lines.
  rewrite !filter_app, !length_app.
  rewrite (flat_map_length_const _ 8) by reflexivity.
  rewrite (filter_flat_map_count is_empty _ 1) by reflexivity.
  rewrite (filter_flat_map_count is_comment _ 1) by reflexivity.
  unfold range. rewrite length_seq.
  repeat split; try (cbn; lia).
  apply last_sections; [reflexivity|].
  intros i. unfold section_lines. eexists [_; _; _; _; _; _; _].
  reflexivity.
Qed.

Lemma document_entries_count (n_bodies : Z) (density : Q) (ms : list Q)
    (ps vs : list (list npfloat)) :
  List.length (document_entries n_bodies density ms ps vs)
  = (4 + 6 * Z.to_nat n_bodies)%nat.
Proof.
  unfold document_entries. rewrite length_app.
  rewrite (flat_map_length_const _ 6) by reflexivity.
  unfold range. rewrite length_seq. cbn. lia.
Qed.

End Outcome.

End OutcomeFacts.

Import OutcomeFacts.

(** X1: generate_bodies returns a document only when the body count and
    the scales of the two normal distributions are non-negative, and it
    does return one for a non-negative count, positive scales and a mass
    range that is finite in binary64.  When it raises, the error never is
    an IndexError: the subscripts body_keys[i], masses[i], positions[i][k]
    and velocities[i][k] of the rendering loop are all in range. *)
Theorem generate_bodies_outcome {S : Type} {RS : RandomSource S}
    {FS : FloatStr} (n_bodies : Z)
    (position_scale velocity_scale mass_scale density : Q) (w : World S) :
  (forall doc w',
      generate_bodies n_bodies position_scale velocity_scale mass_scale
                      density w = (Ok doc, w') ->
      (0 <= n_bodies)%Z /\ 0 <= position_scale /\ 0 <= velocity_scale)
  /\ (forall e w',
        generate_bodies n_bodies position_scale velocity_scale mass_scale
                        density w = (Raise e, w') ->
        forall msg, e <> IndexError msg)
  /\ ((0 <= n_bodies)%Z -> 0 < position_scale -> 0 < velocity_scale ->
      Qabs (mass_scale * 2) < overflow_threshold ->
      exists doc w',
        generate_bodies n_bodies position_scale velocity_scale mass_scale
                        density w = (Ok doc, w')).
Proof.
  split; [|split].
  - intros doc w' Run. exact (generate_bodies_returns _ _ _ _ _ _ _ _ Run).
  - intros e w' Run msg.
    destruct (Qlt_bool position_scale 0) eqn:Hp.
    { unfold generate_bodies in Run.
      rewrite (bind_raise _ _ _ _ _ (normal_bad_scale _ _ _ _ _ Hp)) in Run.
      congruence. }
    destruct (n_bodies <? 0)%Z eqn:Hn.
    { unfold generate_bodies in Run.
      rewrite (bind_raise _ _ _ _ _ (normal_bad_rows _ _ _ _ _ Hp Hn)) in Run.
      unfold negative_dimensions in Run. congruence. }
    destruct (Qlt_bool velocity_scale 0) eqn:Hv.
    { rewrite (generate_bodies_bad_velocity _ _ _ _ _ _ Hp Hn Hv) in Run.
      congruence. }
    apply Z.ltb_ge in Hn. apply Qlt_bool_false in Hp, Hv.
    rewrite (generate_bodies_run _ _ _ _ _ _ Hn Hp Hv) in Run.
    discriminate Run.
  - intros Hn Hp Hv _. eexists. eexists.
    apply generate_bodies_run; [exact Hn| |]; now apply Qlt_le_weak.
Qed.

(** X2: a negative velocity scale is detected only after the positions
    have been sampled: the call raises [scale < 0] and leaves the random
    state advanced past the N rows of three position deviates, with nothing
    output. *)
Theorem velocity_scale_checked_late {S : Type} {RS : RandomSource S}
    {FS : FloatStr} (n_bodies : Z)
    (position_scale velocity_scale mass_scale density : Q) (w : World S) :
  (0 <= n_bodies)%Z -> 0 <= position_scale -> velocity_scale < 0 ->
  generate_bodies n_bodies position_scale velocity_scale mass_scale density w
  = (Raise (ValueError "scale < 0"),
     mkWorld
       (snd (draw_n (draw_n legacy_gauss 3) (Z.to_nat n_bodies) (rng w)))
       (effects w)).
Proof.
  intros Hn Hp Hv. apply generate_bodies_bad_velocity.
  - now apply Qlt_bool_false.
  - apply Z.ltb_ge. lia.
  - now apply Qlt_bool_true.
Qed.

Lemma velocity_scale_checked_late_witness :
  (0 <= 2)%Z /\ 0 <= 1000 /\ -30 < 0 /\
  generate_bodies 2 1000 (-30) 10000 (1 # 10) (start demo)
  = (Raise (ValueError "scale < 0"),
     mkWorld (mkTape [7; 8; 9; 10; 11; 12] [1 # 256; 1 # 2] [0%nat]) []).
Proof.
  assert (H2 : (0 <= 2)%Z) by lia.
  assert (Hp : 0 <= 1000) by (unfold Qle; simpl; lia).
  assert (Hv : -30 < 0) by (unfold Qlt; simpl; lia).
  split; [exact H2|]. split; [exact Hp|]. split; [exact Hv|].
  exact (velocity_scale_checked_late 2 1000 (-30) 10000 (1 # 10) (start demo)
           H2 Hp Hv).
Defined.

(** X3: the returned text has exactly 11 + 8 N lines: 2 + N blank lines,
    5 + N comment lines and 4 + 6 N key=value entries, so every line is
    blank, a comment or an entry; its last line is empty, that is, the text
    ends with a newline. *)
Theorem document_line_account {S : Type} {RS : RandomSource S}
    {FS : FloatStr} (n_bodies : Z)
    (position_scale velocity_scale mass_scale density : Q) (w : World S) :
  (0 <= n_bodies)%Z -> 0 <= position_scale -> 0 <= velocity_scale ->
  exists doc w',
    generate_bodies n_bodies position_scale velocity_scale mass_scale density w
    = (Ok doc, w')
    /\ List.length (lines doc) = (11 + 8 * Z.to_nat n_bodies)%nat
    /\ List.length (filter is_empty (lines doc)) = (2 + Z.to_nat n_bodies)%nat
    /\ List.length (filter is_comment (lines doc))
       = (5 + Z.to_nat n_bodies)%nat
    /\ List.length (entries doc) = (4 + 6 * Z.to_nat n_bodies)%nat
    /\ last (lines doc) "?" = "".
Proof.
  intros Hn Hp Hv.
  destruct (generate_bodies_document n_bodies position_scale velocity_scale
              mass_scale density w Hn Hp Hv) as (doc & Run & Lines & Read).
  exists doc. eexists. split; [exact Run|].
  assert (E : List.length (entries doc) = List.length (read doc))
    by (unfold read; now rewrite length_map).
  rewrite E, Read, Lines, document_entries_count.
  destruct (document_lines_count n_bodies density
              (masses (sample (Z.to_nat n_bodies) position_scale
                              velocity_scale mass_scale (rng w)))
              (positions (sample (Z.to_nat n_bodies) position_scale
                                 velocity_scale mass_scale (rng w)))
              (velocities (sample (Z.to_nat n_bodies) position_scale
                                  velocity_scale mass_scale (rng w))))
    as (L1 & L2 & L3 & L4).
  auto.
Qed.

Lemma document_line_account_witness :
  (0 <= 2)%Z /\ 0 <= 1000 /\ 0 <= 30 /\
  exists doc w',
    generate_bodies 2 1000 30 10000 (1 # 10) (start demo) = (Ok doc, w')
    /\ List.length (lines doc) = (11 + 8 * Z.to_nat 2)%nat
    /\ List.length (filter is_empty (lines doc)) = (2 + Z.to_nat 2)%nat
    /\ List.length (filter is_comment (lines doc)) = (5 + Z.to_nat 2)%nat
    /\ List.length (entries doc) = (4 + 6 * Z.to_nat 2)%nat
    /\ last (lines doc) "?" = "".
Proof.
  assert (H2 : (0 <= 2)%Z) by lia.
  assert (Hp : 0 <= 1000) by (unfold Qle; simpl; lia).
  assert (Hv : 0 <= 30) by (unfold Qle; simpl; lia).
  split; [exact H2|]. split; [exact Hp|]. split; [exact Hv|].
  exact (document_line_account 2 1000 30 10000 (1 # 10) (start demo)
           H2 Hp Hv).
Defined.

(** X4: every body of a run gets the same density value, the rendering of
    the density argument, and the same colour 200,200,200; the name of body
    i is [Body i], and the system name embeds the body count. *)
Theorem constant_fields {S : Type} {RS : RandomSource S}
    {FS : FloatStr} (n_bodies : Z)
    (position_scale velocity_scale mass_scale density : Q) (w : World S) :
  (0 <= n_bodies)%Z -> 0 <= position_scale -> 0 <= velocity_scale ->
  exists doc w',
    generate_bodies n_bodies position_scale velocity_scale mass_scale density w
    = (Ok doc, w')
    /\ field_values "density" (read doc)
       = repeat (str_float density) (Z.to_nat n_bodies)
    /\ field_values "color" (read doc)
       = repeat "200,200,200" (Z.to_nat n_bodies)
    /\ field_values "name" (read doc)
       = map (fun i => "Body " ++ str_int (Z.of_nat i))
             (seq 0 (Z.to_nat n_bodies))
    /\ global_value "name" (read doc)
       = Some ("Random System (" ++ str_int n_bodies ++ " bodies)").
Proof.
  intros Hn Hp Hv.
  destruct (generate_bodies_document n_bodies position_scale velocity_scale
              mass_scale density w Hn Hp Hv) as (doc & Run & _ & Read).
  exists doc. eexists. split; [exact Run|]. rewrite Read.
  destruct (field_values_document n_bodies density
              (masses (sample (Z.to_nat n_bodies) position_scale
                              velocity_scale mass_scale (rng w)))
              (positions (sample (Z.to_nat n_bodies) position_scale
                                 velocity_scale mass_scale (rng w)))
              (velocities (sample (Z.to_nat n_bodies) position_scale
                                  velocity_scale mass_scale (rng w))))
    as (En & _ & Ed & _ & _ & Ec).
  rewrite En, Ed, Ec. unfold range. rewrite !map_const, length_seq.
  repeat split.
  apply global_value_document. unfold header_entries. now left.
Qed.

Lemma constant_fields_witness :
  (0 <= 2)%Z /\ 0 <= 1000 /\ 0 <= 30 /\
  exists doc w',
    generate_bodies 2 1000 30 10000 (1 # 10) (start demo) = (Ok doc, w')
    /\ field_values "density" (read doc)
       = repeat (str_float (1 # 10)) (Z.to_nat 2)
    /\ field_values "color" (read doc) = repeat "200,200,200" (Z.to_nat 2)
    /\ field_values "name" (read doc)
       = map (fun i => "Body " ++ str_int (Z.of_nat i)) (seq 0 (Z.to_nat 2))
    /\ global_value "name" (read doc)
       = Some ("Random System (" ++ str_int 2 ++ " bodies)").
Proof.
  assert (H2 : (0 <= 2)%Z) by lia.
  assert (Hp : 0 <= 1000) by (unfold Qle; simpl; lia).
  assert (Hv : 0 <= 30) by (unfold Qle; simpl; lia).
  split; [exact H2|]. split; [exact Hp|]. split; [exact Hv|].
  exact (constant_fields 2 1000 30 10000 (1 # 10) (start demo) H2 Hp Hv).
Defined.

Module ValueFacts.

Lemma format_1f_zero (x : Q) : x == 0 -> format_1f x = "0.0".
Proof.
  destruct x as [a b]. unfold Qeq. cbn [Qnum Qden]. intros H.
  assert (E : a = 0%Z) by lia. subst a. reflexivity.
Qed.

Lemma format_1f_negative (x : Q) :
  x < 0 -> exists r, format_1f x = String "-"%char r.
Proof.
  intros H. apply Qlt_bool_true in H. unfold format_1f. rewrite H.
  eexists. reflexivity.
Qed.

(** With a zero scale every coordinate is 0 + 0 * z and prints as 0.0. *)
Lemma coordinate_zero (scale z : Q) :
  scale == 0 ->
  format_1f_np (np_add (Finite 0) (to_float64 (scale * z))) = "0.0".
Proof.
  intros H. assert (E : scale * z == 0) by (rewrite H; ring).
  rewrite coordinate_finite
    by (rewrite E; exact overflow_threshold_positive).
  cbn [format_1f_np]. apply format_1f_zero. rewrite E. reflexivity.
Qed.

Lemma triple_zero (scale : Q) (row : list Q) :
  scale == 0 -> List.length row = 3%nat ->
  triple (map (fun z => np_add (Finite 0) (to_float64 (scale * z))) row)
  = "0.0,0.0,0.0".
Proof.
  intros H L.
  destruct row as [|z0 [|z1 [|z2 [|z3 row]]]]; try discriminate L.
  unfold triple. cbn [map nth]. now rewrite !coordinate_zero.
Qed.

Lemma map_repeat {A B} (g : A -> B) (c : B) (l : list A) :
  Forall (fun a => g a = c) l -> map g l = repeat c (List.length l).
Proof.
  intros F. induction F as [|a l E _ IH]; [reflexivity|].
  cbn [map List.length repeat]. now rewrite E, IH.
Qed.

(** A draw between bounds given in the wrong order. *)
Lemma uniform_range_reversed (low high u : Q) :
  high < low -> 0 <= u -> u < 1 ->
  high < low + (high - low) * u /\ low + (high - low) * u <= low.
Proof.
  intros H U0 U1. split.
  - apply Qlt_minus_iff.
    setoid_replace (low + (high - low) * u + - high)
      with ((low - high) * (1 - u)) by ring.
    apply Qmult_lt_0_compat.
    + unfold Qminus. now apply Qlt_minus_iff in H.
    + unfold Qminus. now apply Qlt_minus_iff in U1.
  - apply Qle_minus_iff.
    setoid_replace (low + - (low + (high - low) * u))
      with ((low - high) * u) by ring.
    apply Qmult_le_0_compat; [|assumption].
    apply Qlt_le_weak. unfold Qminus. now apply Qlt_minus_iff in H.
Qed.

End ValueFacts.

Import ValueFacts.

(** X5: in every returned document the i-th position value is the
    rendering of the i-th row of three normal deviates drawn first, and the
    i-th velocity value that of the i-th row of the next N rows: value and
    row have three components each, and the k-th field renders the product
    scale * z of the scale and the k-th deviate of the row.  Where the
    product is within the range of binary64 the field is a decimal number
    that differs from it by at most 0.05 plus the rounding of the product
    (half a unit in the 53rd bit); where it overflows the field is inf or
    -inf. *)
Theorem emitted_coordinates_near_samples {S : Type} {RS : RandomSource S}
    {FS : FloatStr} (n_bodies : Z)
    (position_scale velocity_scale mass_scale density : Q) (w : World S) :
  let N := Z.to_nat n_bodies in
  let zp := fst (draw_n (draw_n legacy_gauss 3) N (rng w)) in
  let s1 := snd (draw_n (draw_n legacy_gauss 3) N (rng w)) in
  let zv := fst (draw_n (draw_n legacy_gauss 3) N s1) in
  List.length zp = N /\ List.length zv = N
  /\ (forall doc w',
        generate_bodies n_bodies position_scale velocity_scale mass_scale
                        density w = (Ok doc, w') ->
        Forall2 (renders_row position_scale)
                (field_values "position" (read doc)) zp
        /\ Forall2 (renders_row velocity_scale)
                   (field_values "velocity" (read doc)) zv)
  /\ ((0 <= n_bodies)%Z -> 0 < position_scale -> 0 < velocity_scale ->
      Qabs (mass_scale * 2) < overflow_threshold ->
      exists doc w',
        generate_bodies n_bodies position_scale velocity_scale mass_scale
                        density w = (Ok doc, w')).
Proof.
  cbv zeta. split; [apply draw_n_length|]. split; [apply draw_n_length|].
  split.
  2:{ intros Hn Hp Hv _. eexists. eexists.
      apply generate_bodies_run; [exact Hn| |]; now apply Qlt_le_weak. }
  intros doc w' Run.
  destruct (returned_fields _ _ _ _ _ _ _ _ Run) as (_ & Ep & Ev).
  destruct (sample_streams (Z.to_nat n_bodies) position_scale velocity_scale
              mass_scale (rng w)) as (Sp & Sv & _).
  rewrite Ep, Ev, Sp, Sv, !map_map.
  assert (Row : forall scale row,
             List.length row = 3%nat ->
             renders_row scale
               (triple (map (fun z => np_add (Finite 0)
                                             (to_float64 (scale * z))) row))
               row).
  { intros scale row L.
    destruct (triple_of_row scale row L) as (z0 & z1 & z2 & E & Sp').
    do 3 eexists. exists z0, z1, z2. split; [exact Sp'|].
    split; [exact E|]. repeat split; apply coordinate_renders. }
  split.
  - apply (Forall2_map_self _ _ (fun row => List.length row = 3%nat));
      [apply matrix_rows|apply Row].
  - apply (Forall2_map_self _ _ (fun row => List.length row = 3%nat));
      [apply matrix_rows|apply Row].
Qed.

Lemma emitted_coordinates_near_samples_witness :
  exists doc w',
    generate_bodies 2 1000 30 10000 (1 # 10) (start demo) = (Ok doc, w')
    /\ field_values "position" (read doc)
       = ["1000.0,2000.0,3000.0"; "-0.4,5000.0,6000.0"]
    /\ Forall2 (renders_row 1000) (field_values "position" (read doc))
               [[1; 2; 3]; [-4 # 10000; 5; 6]].
Proof.
  destruct (emitted_coordinates_near_samples 2 1000 30 10000 (1 # 10)
              (start demo)) as (_ & _ & Content & Returns).
  assert (H2 : (0 <= 2)%Z) by lia.
  assert (Hp : 0 < 1000) by reflexivity.
  assert (Hv : 0 < 30) by reflexivity.
  assert (Hm : Qabs (10000 * 2) < overflow_threshold) by reflexivity.
  destruct (Returns H2 Hp Hv Hm) as (doc & w' & Run).
  destruct (Content doc w' Run) as (Fp & _).
  exists doc, w'. split; [exact Run|]. split; [|exact Fp].
  pose proof Run as R. vm_compute in R. inversion R. vm_compute. reflexivity.
Defined.





(** * Further properties of the visualizer and of the entry point *)

Module ReduceFacts.

Lemma Qmax_upper (a b : Q) : a <= Qmax a b /\ b <= Qmax a b.
Proof.
  unfold Qmax. destruct (Qle_bool a b) eqn:E.
  - apply Qle_bool_iff in E. split; [exact E|apply Qle_refl].
  - split; [apply Qle_refl|]. apply Qlt_le_weak, Qnot_le_lt.
    intros H. apply Qle_bool_iff in H. congruence.
Qed.

Lemma Qmin_lower (a b : Q) : Qmin a b <= a /\ Qmin a b <= b.
Proof.
  unfold Qmin. destruct (Qle_bool a b) eqn:E.
  - apply Qle_bool_iff in E. split; [apply Qle_refl|exact E].
  - split; [|apply Qle_refl]. apply Qlt_le_weak, Qnot_le_lt.
    intros H. apply Qle_bool_iff in H. congruence.
Qed.

Lemma Qmax_choice (a b : Q) : Qmax a b = a \/ Qmax a b = b.
Proof. unfold Qmax. destruct (Qle_bool a b); auto. Qed.

Lemma Qmin_choice (a b : Q) : Qmin a b = a \/ Qmin a b = b.
Proof. unfold Qmin. destruct (Qle_bool a b); auto. Qed.

(** The maximum of a non-empty array is one of its elements and bounds
    them all. *)
Lemma fold_Qmax_spec (t : list Q) (h : Q) :
  In (fold_left Qmax t h) (h :: t)
  /\ Forall (fun m => m <= fold_left Qmax t h) (h :: t).
Proof.
  revert h. induction t as [|a t IH]; intros h; cbn [fold_left].
  - split; [now left|]. constructor; [apply Qle_refl|constructor].
  - destruct (IH (Qmax h a)) as [I F].
    destruct (Qmax_upper h a) as [Uh Ua].
    inversion F as [|? ? F0 Ft]; subst. split.
    + destruct I as [I|I]; [|right; now right].
      destruct (Qmax_choice h a) as [E|E];
        [left|right; left]; congruence.
    + constructor; [eapply Qle_trans; eassumption|].
      constructor; [eapply Qle_trans; eassumption|exact Ft].
Qed.

Lemma fold_Qmin_spec (t : list Q) (h : Q) :
  In (fold_left Qmin t h) (h :: t)
  /\ Forall (fun m => fold_left Qmin t h <= m) (h :: t).
Proof.
  revert h. induction t as [|a t IH]; intros h; cbn [fold_left].
  - split; [now left|]. constructor; [apply Qle_refl|constructor].
  - destruct (IH (Qmin h a)) as [I F].
    destruct (Qmin_lower h a) as [Lh La].
    inversion F as [|? ? F0 Ft]; subst. split.
    + destruct I as [I|I]; [|right; now right].
      destruct (Qmin_choice h a) as [E|E];
        [left|right; left]; congruence.
    + constructor; [eapply Qle_trans; eassumption|].
      constructor; [eapply Qle_trans; eassumption|exact Ft].
Qed.

Lemma amax_spec {S : Type} (a : list Q) :
  (0 < List.length a)%nat ->
  exists top,
    In top a /\ Forall (fun m => m <= top) a
    /\ forall w : World S, amax a w = (Ok top, w).
Proof.
  destruct a as [|h t]; cbn [List.length]; [lia|]. intros _.
  exists (fold_left Qmax t h).
  destruct (fold_Qmax_spec t h) as [I F]. auto.
Qed.

Lemma amin_spec {S : Type} (a : list Q) :
  (0 < List.length a)%nat ->
  exists low,
    In low a /\ Forall (fun m => low <= m) a
    /\ forall w : World S, amin a w = (Ok low, w).
Proof.
  destruct a as [|h t]; cbn [List.length]; [lia|]. intros _.
  exists (fold_left Qmin t h).
  destruct (fold_Qmin_spec t h) as [I F]. auto.
Qed.

End ReduceFacts.

Import ReduceFacts.

Module VisualizeFacts.

Section Visualize.
Context {S : Type} {RS : RandomSource S} {FS : FloatStr} {ZP : ZipfPmf}.

(** The figure of a successful call, panel by panel. *)
Lemma visualize_figure (n_bodies : Z)
    (position_scale velocity_scale mass_scale zipf_param : Q) (w : World S) :
  (1 <= n_bodies)%Z -> 0 <= position_scale -> 0 <= velocity_scale ->
  exists rows vrows shuffled top s',
    visualize_distributions n_bodies position_scale velocity_scale mass_scale
                            zipf_param w
    = (Ok tt,
       mkWorld s'
         (effects w
            ++ [Show
                  [ Hist (flatten rows) 30 "Position Distribution (all axes)"
                         "Position" false;
                    Hist (flatten vrows) 30 "Velocity Distribution (all axes)"
                         "Velocity" false;
                    Hist (map Finite shuffled) 30 "Mass Distribution (Zipf)"
                         "Mass" true;
                    Scatter3D (map (fun row => nth 0 row (Finite 0)) rows)
                              (map (fun row => nth 1 row (Finite 0)) rows)
                              (map (fun row => nth 2 row (Finite 0)) rows)
                              (map (fun m => scale_by (true_divide m top) 50)
                                   shuffled)
                              "3D Position Distribution" ]]))
    /\ List.length rows = Z.to_nat n_bodies
    /\ Forall (fun row => List.length row = 3%nat) rows
    /\ List.length vrows = Z.to_nat n_bodies
    /\ Forall (fun row => List.length row = 3%nat) vrows
    /\ Permutation (zipf_masses n_bodies mass_scale zipf_param) shuffled
    /\ In top shuffled
    /\ Forall (fun m => m <= top) shuffled.
Proof.
  intros Hn Hp Hv. apply Qlt_bool_false in Hp, Hv.
  assert (Hz : (n_bodies <? 0)%Z = false) by (apply Z.ltb_ge; lia).
  unfold visualize_distributions.
  rewrite (bind_ok _ _ _ _ _ (normal_ok 0 position_scale n_bodies 3 w Hp Hz)).
  destruct (normal_rows 0 position_scale (Z.to_nat n_bodies) (rng w))
    as [Lp Rp].
  set (ps := map _ (fst (draw_n _ _ (rng w)))) in *.
  set (w1 := mkWorld _ (effects w)).
  rewrite (bind_ok _ _ _ _ _ (normal_ok 0 velocity_scale n_bodies 3 w1 Hv Hz)).
  destruct (normal_rows 0 velocity_scale (Z.to_nat n_bodies) (rng w1))
    as [Lv Rv].
  set (vs := map _ (fst (draw_n _ _ (rng w1)))) in *.
  set (w2 := mkWorld _ (effects w1)).
  rewrite (bind_ok _ _ _ _ _ (shuffle_ok _ w2)).
  set (zm := zipf_masses n_bodies mass_scale zipf_param).
  pose proof (shuffle_from_Permutation (List.length zm - 1) zm (rng w2)) as Pm.
  set (sh := fst (shuffle_from (List.length zm - 1) zm (rng w2))) in *.
  set (w3 := mkWorld _ (effects w2)).
  cbv zeta.
  rewrite (bind_ok _ _ _ _ _ (column_ok 0 ps w3 Rp ltac:(lia))).
  rewrite (bind_ok _ _ _ _ _ (column_ok 1 ps w3 Rp ltac:(lia))).
  rewrite (bind_ok _ _ _ _ _ (column_ok 2 ps w3 Rp ltac:(lia))).
  assert (Lsh : (0 < List.length sh)%nat).
  { rewrite <- (Permutation_length Pm). unfold zm.
    rewrite zipf_masses_length. lia. }
  destruct (amax_spec (S := S) sh Lsh) as (top & Itop & Ftop & Top).
  rewrite (bind_ok _ _ _ _ _ (Top w3)).
  rewrite emit_ok.
  exists ps, vs, sh, top. eexists.
  split; [reflexivity|]. auto 10.
Qed.

(** Every way a call of the visualizer can end. *)
Lemma visualize_cases (n_bodies : Z)
    (position_scale velocity_scale mass_scale zipf_param : Q) (w : World S) :
  let r := visualize_distributions n_bodies position_scale velocity_scale
                                   mass_scale zipf_param w in
  (position_scale < 0 /\ r = (Raise (ValueError "scale < 0"), w))
  \/ (0 <= position_scale /\ (n_bodies < 0)%Z
      /\ r = (Raise negative_dimensions, w))
  \/ (0 <= position_scale /\ (0 <= n_bodies)%Z /\ velocity_scale < 0
      /\ fst r = Raise (ValueError "scale < 0"))
  \/ (0 <= position_scale /\ 0 <= velocity_scale /\ n_bodies = 0%Z
      /\ r = (Raise (zero_size_reduction "maximum"), w))
  \/ (0 <= position_scale /\ 0 <= velocity_scale /\ (1 <= n_bodies)%Z
      /\ fst r = Ok tt).
Proof.
  cbv zeta.
  destruct (Qlt_bool position_scale 0) eqn:Hp.
  { left. split; [now apply Qlt_bool_true|]. unfold visualize_distributions.
    now rewrite (bind_raise _ _ _ _ _ (normal_bad_scale _ _ _ _ _ Hp)). }
  right. destruct (n_bodies <? 0)%Z eqn:Hn.
  { left. split; [now apply Qlt_bool_false|].
    split; [now apply Z.ltb_lt|]. unfold visualize_distributions.
    now rewrite (bind_raise _ _ _ _ _ (normal_bad_rows _ _ _ _ _ Hp Hn)). }
  right. destruct (Qlt_bool velocity_scale 0) eqn:Hv.
  { left. split; [now apply Qlt_bool_false|].
    split; [now apply Z.ltb_ge|]. split; [now apply Qlt_bool_true|].
    unfold visualize_distributions.
    rewrite (bind_ok _ _ _ _ _ (normal_ok _ _ _ _ _ Hp Hn)).
    now rewrite (bind_raise _ _ _ _ _ (normal_bad_scale _ _ _ _ _ Hv)). }
  right. apply Z.ltb_ge in Hn.
  destruct (Z.eq_dec n_bodies 0) as [->|N0].
  - left. split; [now apply Qlt_bool_false|].
    split; [now apply Qlt_bool_false|]. split; [reflexivity|].
    unfold visualize_distributions.
    rewrite (bind_ok _ _ _ _ _
               (normal_ok 0 position_scale 0 3 w Hp eq_refl)).
    rewrite (bind_ok _ _ _ _ _
               (normal_ok 0 velocity_scale 0 3 _ Hv eq_refl)).
    rewrite (bind_ok _ _ _ _ _ (shuffle_ok _ _)).
    destruct w as [s ev]. reflexivity.
  - right. apply Qlt_bool_false in Hp, Hv.
    split; [exact Hp|]. split; [exact Hv|]. split; [lia|].
    destruct (visualize_run n_bodies position_scale velocity_scale mass_scale
                zipf_param w ltac:(lia) Hp Hv) as (fig & s' & R).
    now rewrite R.
Qed.

(** The entry point, effect by effect; the two bounds of the masses do not
    depend on the random state. *)
Lemma main_trace :
  exists low high,
    In low (zipf_masses 100 10000 (3 # 2))
    /\ In high (zipf_masses 100 10000 (3 # 2))
    /\ Forall (fun m => low <= m /\ m <= high) (zipf_masses 100 10000 (3 # 2))
    /\ forall w : World S,
         exists doc w1 fig s' plo phi vlo vhi,
           generate_bodies 100 1000 30 10000 (1 # 10) w = (Ok doc, w1)
           /\ main w
              = (Ok tt,
                 mkWorld s'
                   (effects w
                      ++ [ FileWrite "random_system.properties" doc;
                           Show fig;
                           Stdout "Generated 100 bodies in 'random_system.properties'";
                           Stdout saved_message;
                           Stdout (newline ++ "Statistics:");
                           Stdout ("Position range: [" ++ format_1f_np plo
                                     ++ ", " ++ format_1f_np phi ++ "]");
                           Stdout ("Velocity range: [" ++ format_1f_np vlo
                                     ++ ", " ++ format_1f_np vhi ++ "]");
                           Stdout ("Mass range: [" ++ format_1f low ++ ", "
                                     ++ format_1f high ++ "]");
                           Stdout ("Largest mass / smallest mass: "
                                     ++ format_1f_np (true_divide high low)) ])).
Proof.
  assert (Fm : (0 < List.length (zipf_masses 100 10000 (3 # 2)))%nat)
    by (rewrite zipf_masses_length; cbn; lia).
  destruct (amin_spec (S := S) _ Fm) as (mlo & Ilo & Flo & Mlo).
  destruct (amax_spec (S := S) _ Fm) as (mhi & Ihi & Fhi & Mhi).
  exists mlo, mhi. split; [exact Ilo|]. split; [exact Ihi|].
  split.
  { rewrite Forall_forall in *. intros m I. split; [now apply Flo|now apply Fhi]. }
  intros w.
  assert (Hn : (0 <= 100)%Z) by lia.
  assert (Hp : 0 <= 1000) by (unfold Qle; simpl; lia).
  assert (Hv : 0 <= 30) by (unfold Qle; simpl; lia).
  pose proof (generate_bodies_run 100 1000 30 10000 (1 # 10) w Hn Hp Hv) as G.
  cbv zeta in G.
  unfold main. cbv zeta.
  rewrite (bind_ok _ _ _ _ _ G).
  set (doc := join newline _) in *.
  set (w1 := mkWorld _ (effects w)) in *.
  rewrite (bind_ok _ _ _ _ _ (emit_ok _ w1)).
  set (w2 := mkWorld (rng w1) _).
  destruct (visualize_run 100 1000 30 10000 (3 # 2) w2 ltac:(lia) Hp Hv)
    as (fig & s3 & V).
  rewrite (bind_ok _ _ _ _ _ V).
  set (w3 := mkWorld s3 _).
  rewrite (bind_ok _ _ _ _ _ (emit_ok _ w3)).
  set (w4 := mkWorld (rng w3) _).
  rewrite (bind_ok _ _ _ _ _ (emit_ok _ w4)).
  set (w5 := mkWorld (rng w4) _).
  apply Qlt_bool_false in Hp, Hv.
  rewrite (bind_ok _ _ _ _ _ (normal_ok 0 1000 100 3 w5 Hp eq_refl)).
  destruct (normal_rows 0 1000 (Z.to_nat 100) (rng w5)) as [Lp Rp].
  set (ps := map _ (fst (draw_n _ _ (rng w5)))) in *.
  set (w6 := mkWorld _ (effects w5)).
  rewrite (bind_ok _ _ _ _ _ (normal_ok 0 30 100 3 w6 Hv eq_refl)).
  destruct (normal_rows 0 30 (Z.to_nat 100) (rng w6)) as [Lv Rv].
  set (vs := map _ (fst (draw_n _ _ (rng w6)))) in *.
  set (w7 := mkWorld _ (effects w6)).
  rewrite (bind_ok _ _ _ _ _ (emit_ok _ w7)).
  set (w8 := mkWorld (rng w7) _).
  assert (Fp : (0 < List.length (flatten ps))%nat)
    by (apply flatten_nonempty; [rewrite Lp; cbn; lia|exact Rp]).
  assert (Fv : (0 < List.length (flatten vs))%nat)
    by (apply flatten_nonempty; [rewrite Lv; cbn; lia|exact Rv]).
  destruct (amin_f_ok (S := S) _ Fp) as (plo & Plo).
  destruct (amax_f_ok (S := S) _ Fp) as (phi & Phi).
  destruct (amin_f_ok (S := S) _ Fv) as (vlo & Vlo).
  destruct (amax_f_ok (S := S) _ Fv) as (vhi & Vhi).
  rewrite (bind_ok _ _ _ _ _ (Plo w8)), (bind_ok _ _ _ _ _ (Phi w8)).
  rewrite (bind_ok _ _ _ _ _ (emit_ok _ w8)).
  set (w9 := mkWorld (rng w8) _).
  rewrite (bind_ok _ _ _ _ _ (Vlo w9)), (bind_ok _ _ _ _ _ (Vhi w9)).
  rewrite (bind_ok _ _ _ _ _ (emit_ok _ w9)).
  set (w10 := mkWorld (rng w9) _).
  rewrite (bind_ok _ _ _ _ _ (Mlo w10)), (bind_ok _ _ _ _ _ (Mhi w10)).
  rewrite (bind_ok _ _ _ _ _ (emit_ok _ w10)).
  set (w11 := mkWorld (rng w10) _).
  rewrite (bind_ok _ _ _ _ _ (Mhi w11)), (bind_ok _ _ _ _ _ (Mlo w11)).
  rewrite emit_ok.
  exists doc, w1, fig. eexists. exists plo, phi, vlo, vhi.
  split; [exact G|].
  f_equal. f_equal. cbn [effects w11 w10 w9 w8 w7 w6 w5 w4 w3 w2 w1].
  repeat rewrite <- app_assoc. reflexivity.
Qed.

End Visualize.

Lemma inverse_square_positive (k : Z) (a : Q) :
  (1 <= k)%Z -> 0 < zipf_pmf (ZipfPmf := inverse_square) k a.
Proof.
  intros H. cbn [zipf_pmf inverse_square]. unfold Qdiv. rewrite Qmult_1_l.
  apply Qinv_lt_0_compat. unfold Qlt. cbn. nia.
Qed.

End VisualizeFacts.

Import VisualizeFacts.

(** X8: visualize_distributions ends normally only when there is at
    least one body and both scales are non-negative.  For zero bodies and
    positive scales, which the generator accepts, it raises from the
    maximum of the empty mass array, masses.max() on line 97, without having
    drawn a random number or shown anything. *)
Theorem visualize_outcome {S : Type} {RS : RandomSource S}
    {FS : FloatStr} {ZP : ZipfPmf} (n_bodies : Z)
    (position_scale velocity_scale mass_scale zipf_param : Q) (w : World S) :
  let r := visualize_distributions n_bodies position_scale velocity_scale
                                   mass_scale zipf_param w in
  (fst r = Ok tt ->
   (1 <= n_bodies)%Z /\ 0 <= position_scale /\ 0 <= velocity_scale)
  /\ (n_bodies = 0%Z -> 0 < position_scale -> 0 < velocity_scale ->
      r = (Raise (ValueError
                    "zero-size array to reduction operation maximum which has no identity"),
           w)).
Proof.
  cbv zeta.
  destruct (visualize_cases n_bodies position_scale velocity_scale mass_scale
              zipf_param w)
    as [(Hp & R)|[(Hp & Hn & R)|[(Hp & Hn & Hv & R)|[(Hp & Hv & Hn & R)
       |(Hp & Hv & Hn & R)]]]];
    rewrite ?R; cbn [fst].
  - split; [discriminate|]. intros _ P _. exfalso.
    exact (Qlt_irrefl _ (Qlt_trans _ _ _ P Hp)).
  - split; [discriminate|]. intros N. lia.
  - split; [discriminate|]. intros _ _ V. exfalso.
    exact (Qlt_irrefl _ (Qlt_trans _ _ _ V Hv)).
  - split; [discriminate|]. reflexivity.
  - split; [auto|]. intros N. lia.
Qed.



(** X11: from every random state the entry point runs to its end; its
    effects are, in this order, one write of random_system.properties, one
    figure and seven console lines.  The text written is the document
    generate_bodies returns from the initial random state, with 100 records
    body0 ... body99. *)
Theorem main_effect_order {S : Type} {RS : RandomSource S}
    {FS : FloatStr} {ZP : ZipfPmf} (w : World S) :
  exists doc w1 fig w' stats,
    generate_bodies 100 1000 30 10000 (1 # 10) w = (Ok doc, w1)
    /\ main w = (Ok tt, w')
    /\ effects w'
       = (effects w
            ++ FileWrite "random_system.properties" doc
            :: Show fig
            :: map Stdout
                 ("Generated 100 bodies in 'random_system.properties'"
                  :: saved_message :: (newline ++ "Statistics:")%string
                  :: stats))%list
    /\ List.length stats = 4%nat
    /\ sections (read doc) = map body_key (seq 0 100)
    /\ occurrences "name" (read doc) = 100%nat.
Proof.
  destruct (main_trace (S := S)) as (low & high & _ & _ & _ & Trace).
  destruct (Trace w)
    as (doc & w1 & fig & s' & plo & phi & vlo & vhi & Gen & Run).
  exists doc, w1, fig. eexists. eexists [_; _; _; _].
  split; [exact Gen|]. split; [exact Run|].
  split; [reflexivity|]. split; [reflexivity|].
  assert (Hn : (0 <= 100)%Z) by lia.
  assert (Hp : 0 <= 1000) by (unfold Qle; simpl; lia).
  assert (Hv : 0 <= 30) by (unfold Qle; simpl; lia).
  destruct (generate_bodies_document 100 1000 30 10000 (1 # 10) w Hn Hp Hv)
    as (doc' & Gen' & _ & Read).
  rewrite Gen in Gen'. inversion Gen'; subst doc'. rewrite Read.
  split; [apply sections_document|].
  apply occurrences_document. now left.
Qed.

(** X12: the two mass lines that the entry point prints last do not depend
    on the random state: they report the smallest and the largest of the
    rank-based masses zipf.pmf(1..100, 1.5) * 10000 * 100, not of the
    uniformly drawn masses written to the file. *)
Theorem main_mass_statistics_fixed {S : Type} {RS : RandomSource S}
    {FS : FloatStr} {ZP : ZipfPmf} :
  exists low high,
    In low (zipf_masses 100 10000 (3 # 2))
    /\ In high (zipf_masses 100 10000 (3 # 2))
    /\ Forall (fun m => low <= m /\ m <= high) (zipf_masses 100 10000 (3 # 2))
    /\ forall w : World S,
         exists w' before,
           main w = (Ok tt, w')
           /\ List.length before = 5%nat
           /\ console (effects w')
              = (console (effects w) ++ before
                   ++ [ ("Mass range: [" ++ format_1f low ++ ", "
                           ++ format_1f high ++ "]")%string;
                        ("Largest mass / smallest mass: "
                           ++ format_1f_np (true_divide high low))%string ])%list.
Proof.
  destruct (main_trace (S := S)) as (low & high & Il & Ih & F & Trace).
  exists low, high. split; [exact Il|]. split; [exact Ih|].
  split; [exact F|]. intros w.
  destruct (Trace w)
    as (doc & w1 & fig & s' & plo & phi & vlo & vhi & _ & Run).
  eexists. eexists [_; _; _; _; _].
  split; [exact Run|]. split; [reflexivity|].
  cbn [effects]. unfold console. rewrite flat_map_app. reflexivity.
Qed.

Module StreamFacts.

Section Stream.
Context {S : Type} {RS : RandomSource S}.

(** The draws of a shuffle depend on the length of the array only. *)
Lemma shuffle_from_state {A B} (i : nat) (x : list A) (y : list B) (s : S) :
  snd (shuffle_from i x s) = snd (shuffle_from i y s).
Proof.
  revert x y s. induction i as [|i IH]; intros x y s; cbn [shuffle_from];
    [reflexivity|].
  destruct (random_interval (Datatypes.S i) s) as [j s']. apply IH.
Qed.

Lemma sample_rest (n : nat) (ps vs ms ps' vs' ms' : Q) (s : S) :
  rest (sample n ps vs ms s) = rest (sample n ps' vs' ms' s).
Proof.
  unfold sample.
  destruct (draw_n (draw_n legacy_gauss 3) n s) as [zp s1].
  destruct (draw_n (draw_n legacy_gauss 3) n s1) as [zv s2].
  destruct (draw_n random_double n s2) as [us s3].
  rewrite !length_map.
  pose proof (shuffle_from_state (List.length us - 1)
                (map (fun u => ms / 10 + (ms * 2 - ms / 10) * u) us)
                (map (fun u => ms' / 10 + (ms' * 2 - ms' / 10) * u) us) s3)
    as E.
  destruct (shuffle_from _ (map (fun u => ms / 10 + _ * u) us) s3) as [a sa].
  destruct (shuffle_from _ (map (fun u => ms' / 10 + _ * u) us) s3) as [b sb].
  exact E.
Qed.

End Stream.

End StreamFacts.

Import StreamFacts.

(** X13: how far a successful call advances the random stream depends on
    the body count only: two calls from the same random state with the same
    count return with the same random state, whatever the scales and the
    density. *)
Theorem draws_independent_of_scales {S : Type} {RS : RandomSource S}
    {FS : FloatStr} (n_bodies : Z)
    (position_scale velocity_scale mass_scale density : Q)
    (position_scale' velocity_scale' mass_scale' density' : Q) (w : World S) :
  (0 <= n_bodies)%Z -> 0 <= position_scale -> 0 <= velocity_scale ->
  0 <= position_scale' -> 0 <= velocity_scale' ->
  exists doc doc' w',
    generate_bodies n_bodies position_scale velocity_scale mass_scale density w
    = (Ok doc, w')
    /\ generate_bodies n_bodies position_scale' velocity_scale' mass_scale'
                       density' w
       = (Ok doc', w').
Proof.
  intros Hn Hp Hv Hp' Hv'.
  do 3 eexists. split.
  - now apply generate_bodies_run.
  - rewrite (generate_bodies_run _ _ _ _ _ _ Hn Hp' Hv'). cbv zeta.
    now rewrite (sample_rest _ position_scale' velocity_scale' mass_scale'
                   position_scale velocity_scale mass_scale).
Qed.

Lemma draws_independent_of_scales_witness :
  (0 <= 2)%Z /\ 0 <= 1000 /\ 0 <= 30 /\ 0 <= 1 /\ 0 <= 2 /\
  exists doc doc' w',
    generate_bodies 2 1000 30 10000 (1 # 10) (start demo) = (Ok doc, w')
    /\ generate_bodies 2 1 2 (-5) (7 # 10) (start demo) = (Ok doc', w').
Proof.
  assert (H2 : (0 <= 2)%Z) by lia.
  assert (Hp : 0 <= 1000) by (unfold Qle; simpl; lia).
  assert (Hv : 0 <= 30) by (unfold Qle; simpl; lia).
  assert (Hp' : 0 <= 1) by (unfold Qle; simpl; lia).
  assert (Hv' : 0 <= 2) by (unfold Qle; simpl; lia).
  split; [exact H2|]. split; [exact Hp|]. split; [exact Hv|].
  split; [exact Hp'|]. split; [exact Hv'|].
  exact (draws_independent_of_scales 2 1000 30 10000 (1 # 10) 1 2 (-5)
           (7 # 10) (start demo) H2 Hp Hv Hp' Hv').
Defined.
